(** * gh-analytics: the CODEOWNERS analyzer of [githubparser.py]

    A shallow embedding of [GitHubCodeOwnersAnalyzer] and the properties
    of its rate-limit guard, repository discovery, CODEOWNERS locator,
    primary-owner parser and report assembly.

    Python [str] values are sequences of Unicode code points, JSON bodies
    are an inductive type with Python's dynamic accessors (which can
    raise), and the HTTP session, the clock and [time.sleep] are threaded
    through a small trace monad whose state is the list of effects
    performed so far. *)

From Stdlib Require Import String Ascii.
From Stdlib Require Import List NArith ZArith QArith Lia Bool.
From Stdlib Require Import SpecFloat.
Import ListNotations.

(** ** Python strings *)

Module PyStr.

(** A [str] is a list of code points ([ord] of each character). *)
Definition str := list N.

(** A literal of the source, character by character. *)
Definition py (s : string) : str := map N_of_ascii (list_ascii_of_string s).

(** [str.isspace] on one character, the table behind [str.strip()] and
    [str.split()] without arguments. *)
Definition isspace (c : N) : bool :=
  ((9 <=? c) && (c <=? 13) || (28 <=? c) && (c <=? 32)
   || (c =? 133) || (c =? 160) || (c =? 5760)
   || (8192 <=? c) && (c <=? 8202)
   || (c =? 8232) || (c =? 8233) || (c =? 8239) || (c =? 8287)
   || (c =? 12288))%N.

Fixpoint lstrip (s : str) : str :=
  match s with
  | [] => []
  | c :: s' => if isspace c then lstrip s' else s
  end.

Definition rstrip (s : str) : str := rev (lstrip (rev s)).

(** [s.strip()] *)
Definition strip (s : str) : str := rstrip (lstrip s).

(** [s.split(sep)] for a one-character separator: one piece more than
    there are separators, empty pieces kept. *)
Fixpoint split_on (sep : N) (s : str) : list str :=
  match s with
  | [] => [[]]
  | c :: s' =>
      if (c =? sep)%N then [] :: split_on sep s'
      else match split_on sep s' with
           | [] => [[c]]
           | piece :: pieces => (c :: piece) :: pieces
           end
  end.

(** [s.split()]: the maximal runs of non-whitespace characters, [cur]
    being the run read so far. *)
Fixpoint split_from (cur : str) (s : str) : list str :=
  match s with
  | [] => match cur with [] => [] | _ => [cur] end
  | c :: s' =>
      if isspace c
      then match cur with
           | [] => split_from [] s'
           | _ => cur :: split_from [] s'
           end
      else split_from (cur ++ [c]) s'
  end.

Definition split (s : str) : list str := split_from [] s.

(** [s.startswith(prefix)] *)
Fixpoint startswith (prefix s : str) : bool :=
  match prefix, s with
  | [], _ => true
  | _ :: _, [] => false
  | p :: prefix', c :: s' => (p =? c)%N && startswith prefix' s'
  end.

(** Truth value of a string: [not s] is [is_empty s]. *)
Definition is_empty (s : str) : bool :=
  match s with [] => true | _ => false end.

Fixpoint eqb (a b : str) : bool :=
  match a, b with
  | [], [] => true
  | x :: a', y :: b' => (x =? y)%N && eqb a' b'
  | _, _ => false
  end.

Definition newline : N := 10%N.

End PyStr.
Import PyStr.

(** ** The primary-owner parser (lines 167-210) *)

(** The [for line in lines] loop of [parse_primary_codeowner]. *)
Fixpoint parse_lines (lines : list str) : option str :=
  match lines with
  | [] => None
  | line :: rest =>
      let line := strip line in
      if is_empty line || startswith (py "#") line then parse_lines rest
      else
        let parts := split line in
        if startswith (py "@") line && (length parts =? 1)%nat
        then Some (skipn 1 line)
        else if (2 <=? length parts)%nat
        then
          let owners := skipn 1 parts in
          (* owners[0] exists: parts has at least two elements *)
          let primary_owner := nth 0 owners [] in
          Some (if startswith (py "@") primary_owner
                then skipn 1 primary_owner else primary_owner)
        else parse_lines rest
  end.

Definition parse_primary_codeowner (content : str) : option str :=
  if is_empty content then None
  else parse_lines (split_on newline (strip content)).

(** ** JSON values and Python's dynamic accessors *)

Set Warnings "-register-all".

(** What [response.json()] returns: [None], [bool], [int], [float] (an
    IEEE 754 double, with [inf] and [nan]), [str], [list] and [dict] (the
    items in order; a key is looked up at its first occurrence). *)
Inductive json : Type :=
| JNull
| JBool (b : bool)
| JNum (n : Z)
| JFloat (x : spec_float)
| JStr (s : str)
| JArr (items : list json)
| JObj (fields : list (str * json)).

(** The exceptions that can escape the analyzer's methods. *)
Inductive exn : Type :=
| KeyError          (* d[k] on a dict without k *)
| TypeError         (* an operation on a value of the wrong type *)
| AttributeError    (* v.get on a value that is not a dict *)
| ValueError        (* binascii.Error and UnicodeDecodeError are ValueErrors *)
| ConnectionError   (* requests.exceptions.RequestException from the session *)
| OverflowError     (* a number too large for a float or for time.sleep *)
| OSError.          (* a sleep that the operating system refuses *)

(** What evaluating an expression gives: a value or a raised exception. *)
Inductive result (A : Type) : Type :=
| Ok (a : A)
| Raise (e : exn).
Arguments Ok {A} a.
Arguments Raise {A} e.

Definition rbind {A B : Type} (r : result A) (k : A -> result B) : result B :=
  match r with
  | Ok a => k a
  | Raise e => Raise e
  end.

(** ** Python floats *)

(** The doubles of Python, as the binary64 instance of the standard
    library's specification of IEEE 754 arithmetic. *)
Module Float64.

Definition prec : Z := 53.
Definition emax : Z := 1024.

(** [float(n)]: the nearest double, ties to even; an integer too large
    for a double becomes an infinity here. *)
Definition of_Z (n : Z) : spec_float := binary_normalize prec emax n 0 false.

Definition add (x y : spec_float) : spec_float := SFadd prec emax x y.
Definition sub (x y : spec_float) : spec_float := SFsub prec emax x y.
Definition mul (x y : spec_float) : spec_float := SFmul prec emax x y.

(** The exact value of a finite double; 0 for the others. *)
Definition to_Q (x : spec_float) : Q :=
  match x with
  | S754_finite s m e =>
      let magnitude :=
        match e with
        | Zneg p => Zpos m # (2 ^ p)%positive
        | _ => inject_Z (Zpos m * 2 ^ e)
        end in
      if s then Qopp magnitude else magnitude
  | _ => 0%Q
  end.

End Float64.

(** A number at run time: an [int] (a [bool] counts as one) or a [float]. *)
Inductive number : Type :=
| NInt (n : Z)
| NFloat (x : spec_float).

Module Number.

(** The conversion of an [int] operand next to a [float] one. *)
Definition float_of_int (n : Z) : result spec_float :=
  match Float64.of_Z n with
  | S754_infinity _ => Raise OverflowError
  | x => Ok x
  end.

(** [a < k] and [a > k] for an [int] literal [k] that a double holds
    exactly: the comparison of a [float] with it is exact, and false on
    [nan]. *)
Definition lt_int (a : number) (k : Z) : bool :=
  match a with
  | NInt n => (n <? k)%Z
  | NFloat x => SFltb x (Float64.of_Z k)
  end.

Definition gt_int (a : number) (k : Z) : bool :=
  match a with
  | NInt n => (n >? k)%Z
  | NFloat x => SFltb (Float64.of_Z k) x
  end.

(** [a - k] and [a + k] for an [int] [k]. *)
Definition sub_int (a : number) (k : Z) : result number :=
  match a with
  | NInt n => Ok (NInt (n - k))
  | NFloat x => rbind (float_of_int k) (fun y => Ok (NFloat (Float64.sub x y)))
  end.

Definition add_int (a : number) (k : Z) : result number :=
  match a with
  | NInt n => Ok (NInt (n + k))
  | NFloat x => rbind (float_of_int k) (fun y => Ok (NFloat (Float64.add x y)))
  end.

End Number.

Module Json.

(** [bool(v)] *)
Definition truthy (v : json) : bool :=
  match v with
  | JNull => false
  | JBool b => b
  | JNum n => negb (n =? 0)%Z
  | JFloat x => negb (SFeqb x (S754_zero false))
  | JStr s => negb (is_empty s)
  | JArr items => match items with [] => false | _ => true end
  | JObj fields => match fields with [] => false | _ => true end
  end.

Fixpoint lookup (k : str) (fields : list (str * json)) : option json :=
  match fields with
  | [] => None
  | (k', v) :: rest => if PyStr.eqb k' k then Some v else lookup k rest
  end.

(** [v[k]] for a string key [k] *)
Definition subscript (v : json) (k : str) : result json :=
  match v with
  | JObj fields =>
      match lookup k fields with
      | Some x => Ok x
      | None => Raise KeyError
      end
  | _ => Raise TypeError
  end.

(** [v.get(k, default)] *)
Definition get (v : json) (k : str) (default : json) : result json :=
  match v with
  | JObj fields =>
      match lookup k fields with
      | Some x => Ok x
      | None => Ok default
      end
  | _ => Raise AttributeError
  end.

(** A value as an operand of [<] or [-] next to an [int]: a number goes
    through ([bool] is a subclass of [int]), every other value raises. *)
Definition as_number (v : json) : result number :=
  match v with
  | JNum n => Ok (NInt n)
  | JBool b => Ok (NInt (if b then 1 else 0))
  | JFloat x => Ok (NFloat x)
  | _ => Raise TypeError
  end.

(** The values [for x in v] runs through. *)
Definition iterate (v : json) : result (list json) :=
  match v with
  | JArr items => Ok items
  | JObj fields => Ok (map (fun kv => JStr (fst kv)) fields)
  | JStr s => Ok (map (fun c => JStr [c]) s)
  | _ => Raise TypeError
  end.

(** [len(v)] *)
Definition len (v : json) : result Z :=
  match v with
  | JArr items => Ok (Z.of_nat (length items))
  | JObj fields => Ok (Z.of_nat (length fields))
  | JStr s => Ok (Z.of_nat (length s))
  | _ => Raise TypeError
  end.

Definition is_object (v : json) : Prop :=
  match v with JObj _ => True | _ => False end.

End Json.

(** ** The session, the clock and the trace of effects *)

Inductive param : Type :=
| PInt (n : Z)
| PStr (s : str).

(** [session.get(url, params=params)]; the session's headers are the same
    on every request and are not recorded. *)
Record request : Type := { url : str; params : list (str * param) }.

(** The two attributes the analyzer reads: [status_code] and [json()];
    every body is taken to be JSON. *)
Record response : Type := { status_code : Z; body : json }.

Inductive event : Type :=
| Get (r : request)
| Sleep (seconds : Q).

Definition trace := list event.

(** The world outside the analyzer.  The server's answer and the clock may
    depend on everything that has happened so far; a request that gets no
    answer raises.  [print] writes to standard output only and is not
    modelled. *)
Record env : Type := {
  (** the answer to a request after the given history *)
  server : trace -> request -> result response;
  (** [int(time.time())] after the given history *)
  clock : trace -> Z;
  (** [base64.b64decode(s).decode("utf-8")] of the standard library *)
  b64decode_utf8 : str -> result str;
  (** [format(v)] of a value that is not a [str], inside an f-string *)
  format_value : json -> str;
  (** what the operating system makes of a sleep longer than a second,
      after the given history: the exception of a refusal, if any *)
  sleep_refused : trace -> Q -> option exn
}.

(** The outcome of a call of a method: it returns, it raises, or the
    bound on the number of [while True] iterations was reached first. *)
Inductive outcome (A : Type) : Type :=
| Returns (a : A)
| Raises (e : exn)
| OutOfFuel.
Arguments Returns {A} a.
Arguments Raises {A} e.
Arguments OutOfFuel {A}.

(** Computations that perform effects: the history goes in, the outcome
    and the extended history come out. *)
Definition M (A : Type) : Type := trace -> outcome A * trace.

Definition ret {A : Type} (a : A) : M A := fun t => (Returns a, t).

Definition bind {A B : Type} (c : M A) (k : A -> M B) : M B :=
  fun t =>
    match c t with
    | (Returns a, t') => k a t'
    | (Raises e, t') => (Raises e, t')
    | (OutOfFuel, t') => (OutOfFuel, t')
    end.

(** An expression evaluated inside a method. *)
Definition lift {A : Type} (r : result A) : M A :=
  fun t => (match r with Ok a => Returns a | Raise e => Raises e end, t).

Declare Scope py_scope.
Delimit Scope py_scope with py_m.
Notation "x <- c ;; k" := (bind c (fun x => k))
  (at level 61, c at next level, right associativity) : py_scope.
Notation "c ;; k" := (bind c (fun _ => k))
  (at level 61, right associativity) : py_scope.
Open Scope py_scope.

Definition session_get (E : env) (r : request) : M response :=
  fun t => lift (server E t r) (t ++ [Get r]).

Definition time_time (E : env) : M Z := fun t => (Returns (clock E t), t).

(** What the operating system makes of a sleep that the interpreter has
    accepted: a negative duration is rejected ([ValueError]), a sleep of
    at most a second is carried out, and a longer one is carried out
    unless the operating system refuses it, as it does close to the
    largest duration. *)
Definition sleep_result (E : env) (t : trace) (seconds : Q) : result unit :=
  if negb (Qle_bool 0 seconds) then Raise ValueError
  else if Qle_bool seconds 1 then Ok tt
  else match sleep_refused E t seconds with
       | Some e => Raise e
       | None => Ok tt
       end.

Definition sleeping (E : env) (seconds : Q) : M unit :=
  fun t =>
    match sleep_result E t seconds with
    | Ok _ => (Returns tt, t ++ [Sleep seconds])
    | Raise e => (Raises e, t)
    end.

(** [time.sleep(seconds)] for an [int] and for the literal [0.1]: the
    interpreter first turns the duration into a signed 64-bit number of
    nanoseconds, [OverflowError] when it does not fit. *)
Definition time_sleep (E : env) (seconds : Q) : M unit :=
  let nanoseconds := (seconds * inject_Z 1000000000)%Q in
  if Qle_bool nanoseconds (inject_Z 9223372036854775807)
     && Qle_bool (inject_Z (-9223372036854775808)) nanoseconds
  then sleeping E seconds
  else lift (Raise OverflowError).

(** [time.sleep(x)] for a [float] computed at run time: [nan] is rejected
    ([ValueError]), and so is a duration whose nanoseconds, computed in
    doubles, lie beyond 2^63 ([OverflowError]). *)
Definition time_sleep_float (E : env) (x : spec_float) : M unit :=
  match x with
  | S754_nan => lift (Raise ValueError)
  | _ =>
      let nanoseconds := Float64.mul x (Float64.of_Z 1000000000) in
      if SFltb (Float64.of_Z 9223372036854775808) nanoseconds
         || SFltb nanoseconds (Float64.of_Z (-9223372036854775808))
      then lift (Raise OverflowError)
      else sleeping E (Float64.to_Q x)
  end.

Definition time_sleep_number (E : env) (seconds : number) : M unit :=
  match seconds with
  | NInt n => time_sleep E (inject_Z n)
  | NFloat x => time_sleep_float E x
  end.

(** ** The analyzer *)

(** [self]: the token only enters the session headers. *)
Record analyzer : Type := { token : str; org : str }.

Definition base_url : str := py "https://api.github.com".

(** [f"{v}"] *)
Definition fstring (E : env) (v : json) : str :=
  match v with
  | JStr s => s
  | _ => format_value E v
  end.

Definition rate_limit_request : request :=
  {| url := base_url ++ py "/rate_limit"; params := [] |}.

(** [data["resources"]["core"][k]] *)
Definition core_field (data : json) (k : str) : result json :=
  rbind (Json.subscript data (py "resources")) (fun resources =>
  rbind (Json.subscript resources (py "core")) (fun core =>
  Json.subscript core k)).

(** [check_rate_limit] (lines 51-67) *)
Definition check_rate_limit (E : env) : M unit :=
  response <- session_get E rate_limit_request ;;
  if (status_code response =? 200)%Z then
    let data := body response in
    remaining <- lift (core_field data (py "remaining")) ;;
    reset_time <- lift (core_field data (py "reset")) ;;
    remaining_number <- lift (Json.as_number remaining) ;;
    if Number.lt_int remaining_number 10 then
      now <- time_time E ;;
      reset_number <- lift (Json.as_number reset_time) ;;
      difference <- lift (Number.sub_int reset_number now) ;;
      wait_time <- lift (Number.add_int difference 10) ;;
      if Number.gt_int wait_time 0 then time_sleep_number E wait_time
      else ret tt
    else ret tt
  else ret tt.

(** The keyword arguments of [get_repositories]. *)
Record filters : Type := {
  include_public : bool;
  include_private : bool;
  include_archived : bool
}.

Definition per_page : Z := 100.

Definition listing_request (self : analyzer) (page : Z) : request :=
  {| url := base_url ++ py "/orgs/" ++ org self ++ py "/repos";
     params := [ (py "page", PInt page); (py "per_page", PInt per_page);
                 (py "type", PStr (py "all")); (py "sort", PStr (py "name")) ] |}.

(** The [for repo in data] loop (lines 105-116); each [continue] goes on
    with the rest, [filtered_repos] grows at its end. *)
Fixpoint filter_repos (f : filters) (data : list json) (filtered_repos : list json)
  : result (list json) :=
  match data with
  | [] => Ok filtered_repos
  | repo :: rest =>
      rbind (Json.get repo (py "archived") (JBool false)) (fun archived =>
      if Json.truthy archived && negb (include_archived f)
      then filter_repos f rest filtered_repos
      else
        rbind (Json.get repo (py "private") (JBool false)) (fun private =>
        if Json.truthy private && negb (include_private f)
        then filter_repos f rest filtered_repos
        else
          rbind (Json.get repo (py "private") (JBool false)) (fun private' =>
          if negb (Json.truthy private') && negb (include_public f)
          then filter_repos f rest filtered_repos
          else filter_repos f rest (filtered_repos ++ [repo]))))
  end.

(** The [while True] loop of [get_repositories] (lines 87-124), at most
    [fuel] iterations. *)
Fixpoint get_repositories_loop (E : env) (self : analyzer) (f : filters)
    (fuel : nat) (repositories : list json) (page : Z) : M (list json) :=
  match fuel with
  | O => fun t => (OutOfFuel, t)
  | S fuel' =>
      check_rate_limit E ;;
      response <- session_get E (listing_request self page) ;;
      if negb (status_code response =? 200)%Z then ret repositories
      else
        let data := body response in
        if negb (Json.truthy data) then ret repositories
        else
          items <- lift (Json.iterate data) ;;
          filtered_repos <- lift (filter_repos f items []) ;;
          let repositories := repositories ++ filtered_repos in
          n <- lift (Json.len data) ;;
          if (n <? per_page)%Z then ret repositories
          else get_repositories_loop E self f fuel' repositories (page + 1)
  end.

(** [get_repositories] (lines 69-127) *)
Definition get_repositories (E : env) (self : analyzer) (fuel : nat) (f : filters)
  : M (list json) :=
  get_repositories_loop E self f fuel [] 1.

(** GitHub-supported locations in search order (lines 146-150). *)
Definition locations : list str :=
  [ py ".github/CODEOWNERS"; py "CODEOWNERS"; py "docs/CODEOWNERS" ].

Definition contents_request (E : env) (self : analyzer) (repo_name : json)
    (location : str) : request :=
  {| url := base_url ++ py "/repos/" ++ org self ++ py "/" ++ fstring E repo_name
              ++ py "/contents/" ++ location;
     params := [] |}.

(** [base64.b64decode(v).decode("utf-8")]: the argument must be a [str]. *)
Definition decode_content (E : env) (v : json) : result str :=
  match v with
  | JStr s => b64decode_utf8 E s
  | _ => Raise TypeError
  end.

(** The [for location in locations] loop (lines 154-165). *)
Fixpoint probe_locations (E : env) (self : analyzer) (repo_name : json)
    (locs : list str) : M (option str * option str) :=
  match locs with
  | [] => ret (None, None)
  | location :: rest =>
      response <- session_get E (contents_request E self repo_name location) ;;
      if (status_code response =? 200)%Z then
        let data := body response in
        payload <- lift (Json.get data (py "content") JNull) ;;
        if Json.truthy payload then
          payload' <- lift (Json.subscript data (py "content")) ;;
          content <- lift (decode_content E payload') ;;
          ret (Some content, Some location)
        else probe_locations E self repo_name rest
      else probe_locations E self repo_name rest
  end.

(** [get_codeowners_content] (lines 129-165) *)
Definition get_codeowners_content (E : env) (self : analyzer) (repo_name : json)
  : M (option str * option str) :=
  probe_locations E self repo_name locations.

(** One row of the report (lines 249-255). *)
Record analysis_record : Type := {
  repository_url : json;
  repository_name : json;
  has_codeowner_file : bool;
  codeowners_file_location : option str;
  primary_owner : str
}.

Definition no_codeowners_file : str := py "No CODEOWNERS file".

(** [x or "No CODEOWNERS file"]: [None] and the empty string are false. *)
Definition or_default (x : option str) (default : str) : str :=
  match x with
  | Some (c :: s) => c :: s
  | _ => default
  end.

(** Lines 240-256: the row built from what the locator returned. *)
Definition assemble (repo_url repo_name : json)
    (codeowners_content codeowners_location : option str) : analysis_record :=
  let '(primary_owner, has_codeowner_file, codeowners_location) :=
    match codeowners_content with
    | Some (c :: s) => (parse_primary_codeowner (c :: s), true, codeowners_location)
    | _ => (None, false, None)
    end in
  {| repository_url := repo_url;
     repository_name := repo_name;
     has_codeowner_file := has_codeowner_file;
     codeowners_file_location := codeowners_location;
     primary_owner := or_default primary_owner no_codeowners_file |}.

(** The [for i, repo in enumerate(repositories, 1)] loop (lines 227-259). *)
Fixpoint analyze_loop (E : env) (self : analyzer) (i : Z) (repositories : list json)
    (results : list analysis_record) : M (list analysis_record) :=
  match repositories with
  | [] => ret results
  | repo :: rest =>
      repo_name <- lift (Json.subscript repo (py "name")) ;;
      repo_url <- lift (Json.subscript repo (py "html_url")) ;;
      (if (i mod 50 =? 0)%Z then check_rate_limit E else ret tt) ;;
      found <- get_codeowners_content E self repo_name ;;
      let record := assemble repo_url repo_name (fst found) (snd found) in
      time_sleep E (1 # 10) ;;
      analyze_loop E self (i + 1) rest (results ++ [record])
  end.

(** [analyze_repositories] (lines 212-261) *)
Definition analyze_repositories (E : env) (self : analyzer) (repositories : list json)
  : M (list analysis_record) :=
  analyze_loop E self 1 repositories [].

(** ** Vocabulary of the parsing rules *)

(** A line that the parser passes over without looking at its tokens:
    empty once trimmed, or a comment. *)
Definition skipped (line : str) : bool :=
  is_empty (strip line) || startswith (py "#") (strip line).

(** The whitespace-delimited tokens of a line. *)
Definition tokens (line : str) : list str := split (strip line).

(** A qualifying line: not skipped, and either a single token that begins
    with [@] or at least two tokens. *)
Definition qualifying (line : str) : bool :=
  negb (skipped line) &&
  match tokens line with
  | [] => false
  | [t] => startswith (py "@") t
  | _ :: _ :: _ => true
  end.

(** A token without its leading [@], if it has one. *)
Definition strip_at (t : str) : str :=
  if startswith (py "@") t then skipn 1 t else t.

(** [line] is the first qualifying line of [content]: the lines before it
    are [pre], the lines after it are [post]. *)
Definition first_qualifying (content : str) (pre : list str) (line : str)
    (post : list str) : Prop :=
  split_on newline (strip content) = pre ++ line :: post /\
  (forall x, In x pre -> qualifying x = false) /\
  qualifying line = true.

(** ** Vocabulary of discovery *)

(** [bool(repo.get(k, False))] of a listing entry. *)
Definition flag (repo : json) (k : str) : bool :=
  match Json.get repo k (JBool false) with
  | Ok v => Json.truthy v
  | _ => false
  end.

(** The filtering rule: archived entries need [include_archived], private
    ones [include_private], the others [include_public]. *)
Definition kept (f : filters) (repo : json) : bool :=
  implb (flag repo (py "archived")) (include_archived f)
  && implb (flag repo (py "private")) (include_private f)
  && implb (negb (flag repo (py "private"))) (include_public f).

(** The page numbers [first], [first + 1], ..., [count] of them. *)
Fixpoint page_numbers (first : Z) (count : nat) : list Z :=
  match count with
  | O => []
  | S count' => first :: page_numbers (first + 1) count'
  end.

(** [full_pages E self t page pages t']: from the history [t] and the page
    counter [page], the guard returns and the listing is answered with the
    full pages [pages] one after the other (status 200, a list of at least
    [per_page] objects each), which leads to the history [t']. *)
Inductive full_pages (E : env) (self : analyzer)
  : trace -> Z -> list (list json) -> trace -> Prop :=
| full_pages_nil (t : trace) (page : Z) : full_pages E self t page [] t
| full_pages_cons (t : trace) (page : Z) (t1 : trace) (items : list json)
    (rest : list (list json)) (t' : trace) :
    check_rate_limit E t = (Returns tt, t1) ->
    server E t1 (listing_request self page)
      = Ok {| status_code := 200; body := JArr items |} ->
    (per_page <= Z.of_nat (length items))%Z ->
    Forall Json.is_object items ->
    full_pages E self (t1 ++ [Get (listing_request self page)]) (page + 1) rest t' ->
    full_pages E self t page (items :: rest) t'.

(** ** Observations on a trace *)

(** The history right after the guard's probe. *)
Definition probed (t : trace) : trace := t ++ [Get rate_limit_request].

(** The requests of a history, in order. *)
Definition requests (t : trace) : list request :=
  flat_map (fun e => match e with Get r => [r] | Sleep _ => [] end) t.

Definition is_rate_limit_request (r : request) : bool :=
  PyStr.eqb (url r) (url rate_limit_request).

(** Each call of the guard sends one request to the quota endpoint, and
    nothing else does: the calls of the guard in a history. *)
Definition guard_calls (t : trace) : nat :=
  length (filter is_rate_limit_request (requests t)).

(** The requests of [count] discovery iterations from page [first]: the
    guard's probe, then the page. *)
Definition discovery_requests (self : analyzer) (first : Z) (count : nat)
  : list request :=
  flat_map (fun p => [rate_limit_request; listing_request self p])
           (page_numbers first count).

(** The indices among [first], [first + 1], ... ([count] of them) at which
    the per-repository loop calls the guard. *)
Definition guard_indices (first : Z) (count : nat) : list Z :=
  filter (fun i => (i mod 50 =? 0)%Z) (page_numbers first count).

(** ** Vocabulary of the locator *)

(** The answer to a probe has a status other than 200. *)
Definition other_status (a : result response) : Prop :=
  exists resp, a = Ok resp /\ status_code resp <> 200%Z.

(** The answer is a 200 whose body has no [content], or an empty one. *)
Definition no_payload (a : result response) : Prop :=
  exists resp v,
    a = Ok resp /\ status_code resp = 200%Z /\
    Json.get (body resp) (py "content") JNull = Ok v /\ Json.truthy v = false.

(** The answer is a 200 with a non-empty base64 payload that decodes to
    [content]. *)
Definition found (E : env) (a : result response) (content : str) : Prop :=
  exists resp payload,
    a = Ok resp /\ status_code resp = 200%Z /\
    Json.get (body resp) (py "content") JNull = Ok (JStr payload) /\
    payload <> [] /\ b64decode_utf8 E payload = Ok content.

(** ** The command line (lines 294-387) *)

(** What [parser.parse_args()] returns. *)
Record arguments : Type := {
  arg_org : str;
  arg_token : option str;
  arg_output : str;
  arg_all : bool;
  arg_public : bool;
  arg_private : bool;
  arg_archived : bool
}.

(** [main] returns [None] on every path.  The model returns which path
    was taken and, on the last one, the file name and the rows handed to
    [save_to_csv]; the file system is taken to accept the write, and the
    text that the [csv] module makes of the rows is not modelled. *)
Inductive exit : Type :=
| NoRepositoryClass                                      (* lines 323-333 *)
| AllWithOthers                                          (* lines 336-341 *)
| NoToken                                                (* lines 346-351 *)
| NoRepositories                                         (* lines 371-373 *)
| Saved (filename : str) (results : list analysis_record) (* line 379 *)
| Reported (e : exn).                                    (* lines 383-387 *)

(** [try: body / except Exception as e: handler]; every exception of the
    model is an [Exception].  [KeyboardInterrupt] comes from outside the
    program and is not modelled. *)
Definition try_except {A : Type} (body : M A) (handler : exn -> M A) : M A :=
  fun t =>
    match body t with
    | (Raises e, t') => handler e t'
    | other => other
    end.

(** [a or b] on optional strings: [None] and the empty string are false. *)
Definition or_else (a b : option str) : option str :=
  match a with
  | Some (c :: s) => Some (c :: s)
  | _ => b
  end.

(** Lines 357-362. *)
Definition filters_of (args : arguments) : filters :=
  if arg_all args
  then {| include_public := true; include_private := true; include_archived := true |}
  else {| include_public := arg_public args;
          include_private := arg_private args;
          include_archived := arg_archived args |}.

(** [main] (lines 294-387), with [github_token] for
    [os.getenv("GITHUB_TOKEN")]. *)
Definition main (E : env) (github_token : option str) (fuel : nat) (args : arguments)
  : M exit :=
  if negb (arg_all args || arg_public args || arg_private args || arg_archived args)
  then ret NoRepositoryClass
  else if arg_all args && (arg_public args || arg_private args || arg_archived args)
  then ret AllWithOthers
  else
    match or_else (arg_token args) github_token with
    | Some (c :: s) =>
        try_except
          (let analyzer := {| token := c :: s; org := arg_org args |} in
           repositories <- get_repositories E analyzer fuel (filters_of args) ;;
           match repositories with
           | [] => ret NoRepositories
           | _ :: _ =>
               results <- analyze_repositories E analyzer repositories ;;
               ret (Saved (arg_output args) results)
           end)
          (fun e => ret (Reported e))
    | _ => ret NoToken
    end.

(** ** Further vocabulary *)

Definition no_whitespace (s : str) : Prop := Forall (fun c => isspace c = false) s.

Definition all_whitespace (s : str) : Prop := Forall (fun c => isspace c = true) s.


(** The seconds slept in a history, in order. *)
Definition sleeps (t : trace) : list Q :=
  flat_map (fun e => match e with Get _ => [] | Sleep s => [s] end) t.

(** The requests for the three candidate paths of a repository. *)
Definition candidate_requests (E : env) (self : analyzer) (repo_name : json)
  : list request :=
  map (contents_request E self repo_name) locations.

(** What one call of the guard that returns adds to a history: its probe
    and, at most, one sleep. *)
Definition guard_segment (d : trace) : Prop :=
  d = [Get rate_limit_request] \/
  exists q, (0 < q)%Q /\ d = [Get rate_limit_request; Sleep q].

(** [repository_steps E self i repositories d]: [d] is the history that
    the per-repository loop leaves for [repositories], the first of them
    numbered [i].  Each repository in turn contributes the guard's
    segment when its number is a multiple of 50 and nothing of the guard
    otherwise, then between one and three requests for its CODEOWNERS
    candidates, then the pacing sleep. *)
Inductive repository_steps (E : env) (self : analyzer)
  : Z -> list json -> trace -> Prop :=
| steps_done (i : Z) : repository_steps E self i [] []
| steps_repository (i : Z) (repo name : json) (rest : list json)
    (g : trace) (k : nat) (d : trace) :
    Json.subscript repo (py "name") = Ok name ->
    (if (i mod 50 =? 0)%Z then guard_segment g else g = []) ->
    (1 <= k <= 3)%nat ->
    repository_steps E self (i + 1) rest d ->
    repository_steps E self i (repo :: rest)
      (g ++ map Get (firstn k (candidate_requests E self name))
         ++ [Sleep (1 # 10)] ++ d).

(** [r] is the row of the entry [repo]: it carries the name and the URL
    of the entry and is assembled from a pair that the locator can return. *)
Definition row_of (repo : json) (r : analysis_record) : Prop :=
  Json.subscript repo (py "name") = Ok (repository_name r) /\
  Json.subscript repo (py "html_url") = Ok (repository_url r) /\
  exists content location,
    r = assemble (repository_url r) (repository_name r) content location /\
    ((content = None /\ location = None) \/
     (exists c l, content = Some c /\ location = Some l /\ In l locations)).

(** ** Concrete environments *)

Module Examples.

(** A base64 decoder after [binascii.a2b_base64] in its default mode:
    characters outside the alphabet are passed over, a complete padding
    ends the input, an incomplete quad raises. *)
Definition sextet (c : N) : option N :=
  (if (65 <=? c) && (c <=? 90) then Some (c - 65)
   else if (97 <=? c) && (c <=? 122) then Some (c - 71)
   else if (48 <=? c) && (c <=? 57) then Some (c + 4)
   else if c =? 43 then Some 62
   else if c =? 47 then Some 63
   else None)%N.

Fixpoint a2b_base64 (s : str) (quad_pos : nat) (leftchar : N) (pads : nat)
    (out : list N) : result (list N) :=
  match s with
  | [] => if (quad_pos =? 0)%nat then Ok out else Raise ValueError
  | c :: s' =>
      if (c =? 61)%N then
        if (2 <=? quad_pos)%nat then
          if (4 <=? quad_pos + S pads)%nat then Ok out
          else a2b_base64 s' quad_pos leftchar (S pads) out
        else a2b_base64 s' quad_pos leftchar pads out
      else
        match sextet c with
        | None => a2b_base64 s' quad_pos leftchar pads out
        | Some v =>
            match quad_pos with
            | 0%nat => a2b_base64 s' 1 v 0 out
            | 1%nat => a2b_base64 s' 2 (v mod 16)%N 0 (out ++ [leftchar * 4 + v / 16])%N
            | 2%nat => a2b_base64 s' 3 (v mod 4)%N 0 (out ++ [leftchar * 16 + v / 4])%N
            | _ => a2b_base64 s' 0 0%N 0 (out ++ [leftchar * 64 + v])%N
            end
        end
  end.

(** [b64decode(s).decode("utf-8")] for payloads of ASCII text; this
    instance declines every byte above 127. *)
Definition b64decode_ascii (s : str) : result str :=
  if forallb (fun c => c <? 128)%N s then
    rbind (a2b_base64 s 0 0%N 0 [])
          (fun bytes => if forallb (fun b => b <? 128)%N bytes
                        then Ok bytes else Raise ValueError)
  else Raise ValueError.

Definition param_eqb (a b : param) : bool :=
  match a, b with
  | PInt x, PInt y => (x =? y)%Z
  | PStr x, PStr y => PyStr.eqb x y
  | _, _ => false
  end.

Fixpoint params_eqb (a b : list (str * param)) : bool :=
  match a, b with
  | [], [] => true
  | (k, v) :: a', (k', v') :: b' =>
      PyStr.eqb k k' && param_eqb v v' && params_eqb a' b'
  | _, _ => false
  end.

Definition request_eqb (a b : request) : bool :=
  PyStr.eqb (url a) (url b) && params_eqb (params a) (params b).

Definition not_found : response :=
  {| status_code := 404; body := JObj [(py "message", JStr (py "Not Found"))] |}.

(** A server that answers from a fixed table of routes, 404 elsewhere. *)
Fixpoint route (routes : list (request * result response)) (r : request)
  : result response :=
  match routes with
  | [] => Ok not_found
  | (r', a) :: rest => if request_eqb r' r then a else route rest r
  end.

(** The environment of a table of routes, at a clock that stands still.
    The repository names below are all strings, so the formatter of other
    values is never consulted. *)
Definition static_env (routes : list (request * result response)) (now : Z) : env :=
  {| server := fun _ r => route routes r;
     clock := fun _ => now;
     b64decode_utf8 := b64decode_ascii;
     format_value := fun _ => py "?";
     sleep_refused := fun _ _ => None |}.

Definition acme : analyzer := {| token := py "t0ken"; org := py "acme" |}.

Definition quota_body (remaining reset : Z) : json :=
  JObj [ (py "resources",
          JObj [ (py "core",
                  JObj [ (py "limit", JNum 5000);
                         (py "remaining", JNum remaining);
                         (py "reset", JNum reset) ]) ]) ].

Definition quota (remaining reset : Z) : request * result response :=
  (rate_limit_request,
   Ok {| status_code := 200; body := quota_body remaining reset |}).

Definition repo_entry (name : string) (private archived : bool) : json :=
  JObj [ (py "name", JStr (py name));
         (py "html_url", JStr (py "https://github.com/acme/" ++ py name));
         (py "private", JBool private);
         (py "archived", JBool archived) ].

Definition listing (page : Z) (status : Z) (data : json) : request * result response :=
  (listing_request acme page, Ok {| status_code := status; body := data |}).

Definition file (E : env) (name location payload : string) : request * result response :=
  (contents_request E acme (JStr (py name)) (py location),
   Ok {| status_code := 200;
         body := JObj [ (py "type", JStr (py "file"));
                        (py "encoding", JStr (py "base64"));
                        (py "content", JStr (py payload)) ] |}).

(** The requests never depend on the environment when the repository
    names are strings; the routes are written against this one. *)
Definition plain : env := static_env [] 0.

Definition full_page : list json := repeat (repo_entry "svc" false false) 100.

Definition mixed_page : list json :=
  [ repo_entry "api" false false; repo_entry "infra" true false;
    repo_entry "legacy" true true; repo_entry "old-site" false true ].

(** One full page, then a short one. *)
Definition two_pages : env :=
  static_env [ quota 5000 0; listing 1 200 (JArr full_page);
               listing 2 200 (JArr mixed_page) ] 0.

(** One full page, then a gateway error. *)
Definition then_failure : env :=
  static_env [ quota 5000 0; listing 1 200 (JArr full_page);
               listing 2 502 (JObj [(py "message", JStr (py "Bad Gateway"))]) ] 0.

Definition svc : json := JStr (py "svc").

(** [svc] has its CODEOWNERS in the root directory only. *)
Definition root_only : env :=
  static_env [ quota 5000 0; file plain "svc" "CODEOWNERS" "KiBAYWxpY2UK" ] 0.

(** [.github/CODEOWNERS] is an empty file (a 200 with an empty payload),
    the root one has a rule. *)
Definition empty_then_root : env :=
  static_env [ quota 5000 0; file plain "svc" ".github/CODEOWNERS" "";
               file plain "svc" "CODEOWNERS" "KiBAYm9iCg==" ] 0.

(** The CODEOWNERS of [svc] is the single character [@]. *)
Definition lone_at : env :=
  static_env [ quota 5000 0; file plain "svc" ".github/CODEOWNERS" "QA==" ] 0.

(** The CODEOWNERS of [svc] has comments and blank lines only. *)
Definition comments_only : env :=
  static_env [ quota 5000 0;
               file plain "svc" "docs/CODEOWNERS" "IyBvbmx5IGNvbW1lbnRzCgojIGhlcmUK" ] 0.

Definition all_repos : filters :=
  {| include_public := true; include_private := true; include_archived := true |}.

Definition public_only : filters :=
  {| include_public := true; include_private := false; include_archived := false |}.



(** The double nearest to [m * 2^e]. *)
Definition double (m e : Z) : spec_float :=
  binary_normalize Float64.prec Float64.emax m e false.

(** The quota endpoint answers with fractional numbers: 9.5 requests
    remaining, the reset at 1700000000.5; it is 1699999400. *)
Definition fractional_quota : env :=
  static_env
    [(rate_limit_request,
      Ok {| status_code := 200;
            body := JObj [(py "resources",
                           JObj [(py "core",
                                  JObj [(py "remaining", JFloat (double 19 (-1)));
                                        (py "reset", JFloat (double 3400000001 (-1)))])])] |})]
    1699999400.



Definition archived_only : filters :=
  {| include_public := false; include_private := false; include_archived := true |}.

(** A page with an entry that is not an object. *)
Definition broken_page : env :=
  static_env [ quota 5000 0;
               listing 1 200 (JArr [repo_entry "api" false false; JNull]) ] 0.

(** One full page, then the connection drops. *)
Definition then_offline : env :=
  static_env [ quota 5000 0; listing 1 200 (JArr full_page);
               (listing_request acme 2, Raise ConnectionError) ] 0.

(** [.github/CODEOWNERS] of [svc] is a directory: the contents endpoint
    answers 200 with the list of its entries. *)
Definition codeowners_directory : env :=
  static_env
    [ quota 5000 0;
      (contents_request plain acme svc (py ".github/CODEOWNERS"),
       Ok {| status_code := 200;
             body := JArr [JObj [ (py "type", JStr (py "file"));
                                  (py "name", JStr (py "README.md")) ]] |});
      file plain "svc" "CODEOWNERS" "KiBAYWxpY2UK" ] 0.

(** Two public repositories listed on one page; [api] has a rule in
    [.github/CODEOWNERS], [web] has no CODEOWNERS file. *)
Definition small_org : env :=
  static_env [ quota 5000 0;
               listing 1 200 (JArr [repo_entry "api" false false;
                                    repo_entry "web" false false]);
               file plain "api" ".github/CODEOWNERS" "KiBAYm9iCg==" ] 0.

Definition cli (token : option str) (all public private archived : bool) : arguments :=
  {| arg_org := py "acme"; arg_token := token;
     arg_output := py "codeowners_analysis.csv";
     arg_all := all; arg_public := public; arg_private := private;
     arg_archived := archived |}.

End Examples.

(** * Properties *)

(** ** Running computations *)

Section Running.

Context {A B : Type}.

Lemma bind_returns (c : M A) (k : A -> M B) (t t' : trace) (a : A) :
  c t = (Returns a, t') -> bind c k t = k a t'.
Proof. intros H. unfold bind. rewrite H. reflexivity. Qed.

Lemma bind_ret (a : A) (k : A -> M B) (t : trace) : bind (ret a) k t = k a t.
Proof. reflexivity. Qed.

Lemma bind_lift_ok (a : A) (k : A -> M B) (t : trace) :
  bind (lift (Ok a)) k t = k a t.
Proof. reflexivity. Qed.

Lemma bind_lift_raise (e : exn) (k : A -> M B) (t : trace) :
  bind (lift (@Raise A e)) k t = (Raises e, t).
Proof. reflexivity. Qed.

End Running.

Lemma bind_session_get {B : Type} (E : env) (r : request) (k : response -> M B)
    (t : trace) :
  bind (session_get E r) k t = bind (lift (server E t r)) k (t ++ [Get r]).
Proof. reflexivity. Qed.

(** Runs a computation as far as the rewriting of the hypotheses allows. *)
Ltac run :=
  repeat first
    [ rewrite bind_ret
    | rewrite bind_lift_ok
    | rewrite bind_lift_raise
    | progress cbv beta ].

Ltac run_in H :=
  repeat first
    [ rewrite bind_ret in H
    | rewrite bind_lift_ok in H
    | rewrite bind_lift_raise in H
    | progress cbv beta in H ].

(** ** Trimming and splitting *)

Section Strings.

Lemma lstrip_head (s : str) (c : N) (r : str) :
  lstrip s = c :: r -> isspace c = false.
Proof.
  induction s as [|d s IH]; simpl; [discriminate|].
  destruct (isspace d) eqn:Hd; [exact IH|].
  intros H; injection H as -> _. exact Hd.
Qed.

Lemma lstrip_suffix (s : str) : exists p, s = p ++ lstrip s.
Proof.
  induction s as [|d s [p Hp]]; simpl.
  - exists []. reflexivity.
  - destruct (isspace d).
    + exists (d :: p). simpl. f_equal. exact Hp.
    + exists []. reflexivity.
Qed.

(** A trimmed string does not begin with whitespace. *)
Lemma strip_head (s : str) (c : N) (r : str) :
  strip s = c :: r -> isspace c = false.
Proof.
  unfold strip, rstrip. intros H.
  destruct (lstrip_suffix (rev (lstrip s))) as [p Hp].
  apply (f_equal (@rev N)) in Hp.
  rewrite rev_involutive, rev_app_distr, H in Hp. simpl in Hp.
  exact (lstrip_head _ _ _ Hp).
Qed.

(** A trimmed string does not end in whitespace. *)
Lemma strip_no_trailing (s y b : str) :
  strip s = y ++ b -> Forall (fun c => isspace c = true) b -> b = [].
Proof.
  unfold strip, rstrip. intros H Hb.
  apply (f_equal (@rev N)) in H.
  rewrite rev_involutive, rev_app_distr in H.
  destruct (rev b) as [|d b'] eqn:Hrev.
  - apply (f_equal (@rev N)) in Hrev. rewrite rev_involutive in Hrev. exact Hrev.
  - simpl in H. apply lstrip_head in H.
    assert (Hin : In d b).
    { apply in_rev. rewrite Hrev. left. reflexivity. }
    rewrite Forall_forall in Hb. rewrite (Hb _ Hin) in H. discriminate.
Qed.

Lemma split_from_nonempty (s cur : str) :
  cur <> [] -> split_from cur s <> [].
Proof.
  revert cur. induction s as [|c s IH]; simpl; intros cur Hcur.
  - destruct cur; [contradiction | discriminate].
  - destruct (isspace c).
    + destruct cur; [contradiction | discriminate].
    + apply IH. destruct cur; discriminate.
Qed.

Lemma split_from_nil (s : str) :
  split_from [] s = [] -> Forall (fun c => isspace c = true) s.
Proof.
  induction s as [|c s IH]; simpl; intros H; [constructor|].
  destruct (isspace c) eqn:Hc.
  - constructor; auto.
  - exfalso. revert H. apply split_from_nonempty. discriminate.
Qed.

(** A single token is the run in progress, what follows it up to the
    first whitespace, and then whitespace only. *)
Lemma split_from_single (s cur t : str) :
  cur <> [] -> split_from cur s = [t] ->
  exists a b, s = a ++ b /\ Forall (fun c => isspace c = true) b /\ t = cur ++ a.
Proof.
  revert cur. induction s as [|c s IH]; simpl; intros cur Hcur H.
  - exists [], []. destruct cur; [contradiction|].
    injection H as <-.
    split; [reflexivity | split; [constructor | now rewrite app_nil_r]].
  - destruct (isspace c) eqn:Hc.
    + destruct cur as [|c0 cur]; [contradiction|].
      injection H as <- H. exists [], (c :: s).
      split; [reflexivity | split; [| now rewrite app_nil_r]].
      constructor; [exact Hc | exact (split_from_nil _ H)].
    + destruct (IH (cur ++ [c])) as (a & b & -> & Hb & ->); [destruct cur; discriminate | exact H |].
      exists (c :: a), b. rewrite <- app_assoc.
      split; [reflexivity | split; [exact Hb | reflexivity]].
Qed.

(** A trimmed line with exactly one token is that token. *)
Lemma split_single_strip (s t : str) : split (strip s) = [t] -> strip s = t.
Proof.
  intros H. destruct (strip s) as [|c r] eqn:Hs; [discriminate|].
  pose proof (strip_head _ _ _ Hs) as Hc.
  unfold split in H. simpl in H. rewrite Hc in H.
  destruct (split_from_single r [c] t ltac:(discriminate) H) as (a & b & -> & Hb & ->).
  change (c :: a ++ b) with ((c :: a) ++ b) in Hs.
  rewrite (strip_no_trailing _ _ _ Hs Hb), app_nil_r. reflexivity.
Qed.

End Strings.

(** ** The primary-owner parser *)

Section Parser.

Lemma parse_lines_cons (x : str) (rest : list str) :
  parse_lines (x :: rest) =
  if is_empty (strip x) || startswith (py "#") (strip x) then parse_lines rest
  else if startswith (py "@") (strip x) && (length (split (strip x)) =? 1)%nat
  then Some (skipn 1 (strip x))
  else if (2 <=? length (split (strip x)))%nat
  then Some (strip_at (nth 0 (skipn 1 (split (strip x))) []))
  else parse_lines rest.
Proof. reflexivity. Qed.

Lemma parse_lines_skip (x : str) (rest : list str) :
  qualifying x = false -> parse_lines (x :: rest) = parse_lines rest.
Proof.
  rewrite parse_lines_cons. unfold qualifying, skipped, tokens.
  destruct (is_empty (strip x) || startswith (py "#") (strip x)); [reflexivity|].
  cbn [negb andb]. destruct (split (strip x)) as [|t [|t2 more]] eqn:Hparts.
  - intros _. rewrite andb_false_r. reflexivity.
  - intros Ht. rewrite (split_single_strip _ _ Hparts), Ht. reflexivity.
  - discriminate.
Qed.

Lemma parse_lines_team (x : str) (rest : list str) (t : str) :
  qualifying x = true -> tokens x = [t] ->
  parse_lines (x :: rest) = Some (skipn 1 t).
Proof.
  rewrite parse_lines_cons. unfold qualifying, skipped, tokens. intros Hq Hparts.
  rewrite Hparts in Hq |- *.
  destruct (is_empty (strip x) || startswith (py "#") (strip x)); [discriminate|].
  cbn [negb andb] in Hq. rewrite (split_single_strip _ _ Hparts), Hq. reflexivity.
Qed.

Lemma parse_lines_pattern (x : str) (rest : list str) (t1 t2 : str) (more : list str) :
  qualifying x = true -> tokens x = t1 :: t2 :: more ->
  parse_lines (x :: rest) = Some (strip_at t2).
Proof.
  rewrite parse_lines_cons. unfold qualifying, skipped, tokens. intros Hq Hparts.
  rewrite Hparts in Hq |- *.
  destruct (is_empty (strip x) || startswith (py "#") (strip x)); [discriminate|].
  rewrite andb_false_r. reflexivity.
Qed.

Lemma parse_lines_prefix (pre rest : list str) :
  (forall x, In x pre -> qualifying x = false) ->
  parse_lines (pre ++ rest) = parse_lines rest.
Proof.
  induction pre as [|x pre IH]; intros Hpre; [reflexivity|].
  change ((x :: pre) ++ rest) with (x :: (pre ++ rest)).
  rewrite parse_lines_skip by (apply Hpre; left; reflexivity).
  apply IH. intros y Hy. apply Hpre. right. exact Hy.
Qed.

(** With a qualifying line in it, the content is not the empty string,
    and the parser's answer is the one of the loop from that line on. *)
Lemma parse_from_first_qualifying (content : str) (pre : list str) (line : str)
    (post : list str) :
  split_on newline (strip content) = pre ++ line :: post ->
  (forall x, In x pre -> qualifying x = false) ->
  negb (skipped line) = true ->
  parse_primary_codeowner content = parse_lines (line :: post).
Proof.
  intros Hlines Hpre Hline. unfold parse_primary_codeowner.
  destruct content as [|c content]; simpl is_empty.
  - exfalso. change (strip []) with (@nil N) in Hlines. simpl in Hlines.
    destruct pre as [|x [|y pre]]; try discriminate.
    injection Hlines as <- _. discriminate.
  - rewrite Hlines. apply parse_lines_prefix. exact Hpre.
Qed.

(** No qualifying line at all: the parser returns [None]. *)
Lemma parse_no_qualifying (content : str) :
  (forall x, In x (split_on newline (strip content)) -> qualifying x = false) ->
  parse_primary_codeowner content = None.
Proof.
  intros H. unfold parse_primary_codeowner.
  destruct (is_empty content); [reflexivity|].
  rewrite <- (app_nil_r (split_on newline (strip content))).
  rewrite parse_lines_prefix by exact H. reflexivity.
Qed.

(** C1. The parser goes through the lines of the trimmed content, passes
    over every line that is not a qualifying one (empty once trimmed, a
    comment, or a lone token without [@]) and answers at the first
    qualifying line: a single token beginning with [@] gives that token
    without its [@]; two or more tokens give the second token, without a
    leading [@] if it has one.  When that line is [* @alice] the answer
    is [alice]. *)
Theorem parse_primary_codeowner_first_rule (content : str) (pre : list str)
    (line : str) (post : list str) :
  first_qualifying content pre line post ->
  (forall t, tokens line = [t] -> startswith (py "@") t = true ->
     parse_primary_codeowner content = Some (skipn 1 t)) /\
  (forall t1 t2 more, tokens line = t1 :: t2 :: more ->
     parse_primary_codeowner content = Some (strip_at t2)) /\
  (strip line = py "* @alice" ->
     parse_primary_codeowner content = Some (py "alice")).
Proof.
  intros (Hlines & Hpre & Hq).
  assert (Hns : negb (skipped line) = true).
  { unfold qualifying in Hq. apply andb_true_iff in Hq. tauto. }
  rewrite (parse_from_first_qualifying _ _ _ _ Hlines Hpre Hns).
  split; [| split].
  - intros t Ht _. exact (parse_lines_team _ _ _ Hq Ht).
  - intros t1 t2 more Ht. exact (parse_lines_pattern _ _ _ _ _ Hq Ht).
  - intros Hline.
    apply (parse_lines_pattern line post (py "*") (py "@alice") [] Hq).
    unfold tokens. rewrite Hline. reflexivity.
Qed.

End Parser.

Lemma parse_primary_codeowner_first_rule_witness :
  first_qualifying (py "# owners

* @alice
") [py "# owners"; py ""] (py "* @alice") []
  /\ parse_primary_codeowner (py "# owners

* @alice
") = Some (py "alice").
Proof.
  assert (H : first_qualifying (py "# owners

* @alice
") [py "# owners"; py ""] (py "* @alice") []).
  { split; [reflexivity | split; [| reflexivity]].
    intros x [<- | [<- | []]]; reflexivity. }
  split; [exact H|].
  destruct (parse_primary_codeowner_first_rule _ _ _ _ H) as (_ & _ & Halice).
  apply Halice. reflexivity.
Defined.

(** ** The rate-limit guard *)

Section Guard.

Variable E : env.

(** The pacing sleep of a tenth of a second is always carried out. *)
Lemma time_sleep_tenth (t : trace) :
  time_sleep E (1 # 10) t = (Returns tt, t ++ [Sleep (1 # 10)]).
Proof. reflexivity. Qed.

Lemma sleeping_outcomes (q : Q) (t : trace) (o : outcome unit) (t' : trace) :
  sleeping E q t = (o, t') ->
  (sleep_result E t q = Ok tt /\ o = Returns tt /\ t' = t ++ [Sleep q]) \/
  (exists e, sleep_result E t q = Raise e /\ o = Raises e /\ t' = t).
Proof.
  unfold sleeping. destruct (sleep_result E t q) as [[] | e]; intros H;
    injection H as <- <-; [left | right; exists e]; repeat split; reflexivity.
Qed.

(** A whole number of seconds fits the interpreter's nanoseconds up to
    9223372036 and not beyond. *)
Lemma time_sleep_within (n : Z) (t : trace) :
  (0 <= n <= 9223372036)%Z ->
  time_sleep E (inject_Z n) t = sleeping E (inject_Z n) t.
Proof.
  intros Hn. unfold time_sleep. cbv zeta.
  replace (Qle_bool (inject_Z n * inject_Z 1000000000) (inject_Z 9223372036854775807))
    with true.
  2:{ symmetry. apply Qle_bool_iff. rewrite <- inject_Z_mult, <- Zle_Qle. lia. }
  replace (Qle_bool (inject_Z (-9223372036854775808)) (inject_Z n * inject_Z 1000000000))
    with true.
  2:{ symmetry. apply Qle_bool_iff. rewrite <- inject_Z_mult, <- Zle_Qle. lia. }
  reflexivity.
Qed.

Lemma time_sleep_beyond (n : Z) (t : trace) :
  (9223372036 < n)%Z ->
  time_sleep E (inject_Z n) t = (Raises OverflowError, t).
Proof.
  intros Hn. unfold time_sleep. cbv zeta.
  destruct (Qle_bool (inject_Z n * inject_Z 1000000000) (inject_Z 9223372036854775807))
    eqn:Hle; [| reflexivity].
  apply Qle_bool_iff in Hle. rewrite <- inject_Z_mult, <- Zle_Qle in Hle. lia.
Qed.

(** What the operating system is asked, for a whole number of seconds. *)
Lemma sleep_result_int (n : Z) (t : trace) :
  (0 < n)%Z ->
  sleep_result E t (inject_Z n) =
  if (n <=? 1)%Z then Ok tt
  else match sleep_refused E t (inject_Z n) with
       | Some e => Raise e
       | None => Ok tt
       end.
Proof.
  intros Hn. unfold sleep_result.
  replace (Qle_bool 0 (inject_Z n)) with true.
  2:{ symmetry. apply Qle_bool_iff. change 0%Q with (inject_Z 0).
      rewrite <- Zle_Qle. lia. }
  cbn [negb].
  destruct (Z.leb_spec n 1) as [Hle | Hgt].
  - replace (Qle_bool (inject_Z n) 1) with true; [reflexivity|].
    symmetry. apply Qle_bool_iff. change 1%Q with (inject_Z 1).
    rewrite <- Zle_Qle. exact Hle.
  - destruct (Qle_bool (inject_Z n) 1) eqn:Hq; [| reflexivity].
    apply Qle_bool_iff in Hq. change 1%Q with (inject_Z 1) in Hq.
    rewrite <- Zle_Qle in Hq. lia.
Qed.

(** A double above zero is a positive finite one or the infinity. *)
Lemma float_above_zero (x : spec_float) :
  SFltb (Float64.of_Z 0) x = true ->
  x = S754_infinity false \/ exists m e, x = S754_finite false m e.
Proof.
  change (Float64.of_Z 0) with (S754_zero false).
  destruct x as [s | s | | s m e]; cbn; try discriminate.
  - destruct s; [discriminate | left; reflexivity].
  - destruct s; [discriminate | right; exists m, e; reflexivity].
Qed.

Lemma to_Q_positive (m : positive) (e : Z) :
  (0 < Float64.to_Q (S754_finite false m e))%Q.
Proof.
  unfold Float64.to_Q. destruct e as [| p | p].
  - change 0%Q with (inject_Z 0). rewrite <- Zlt_Qlt. lia.
  - change 0%Q with (inject_Z 0). rewrite <- Zlt_Qlt.
    pose proof (Z.pow_pos_nonneg 2 (Z.pos p)). lia.
  - unfold Qlt. cbn. lia.
Qed.

(** A positive duration is slept in full, or [time.sleep] raises and
    nothing is slept. *)
Lemma time_sleep_number_outcomes (w : number) (t : trace) (o : outcome unit)
    (t' : trace) :
  Number.gt_int w 0 = true ->
  time_sleep_number E w t = (o, t') ->
  (exists e, o = Raises e /\ t' = t) \/
  (exists q, (0 < q)%Q /\ o = Returns tt /\ t' = t ++ [Sleep q]).
Proof.
  destruct w as [n | x]; cbn [Number.gt_int time_sleep_number].
  - intros Hn H. apply Z.gtb_lt in Hn.
    destruct (Z.le_gt_cases n 9223372036) as [Hle | Hgt].
    + rewrite time_sleep_within in H by lia.
      destruct (sleeping_outcomes _ _ _ _ H) as [(_ & -> & ->) | (e & _ & -> & ->)].
      * right. exists (inject_Z n). split; [| split; reflexivity].
        change 0%Q with (inject_Z 0). rewrite <- Zlt_Qlt. exact Hn.
      * left. exists e. split; reflexivity.
    + rewrite time_sleep_beyond in H by exact Hgt. injection H as <- <-.
      left. exists OverflowError. split; reflexivity.
  - intros Hx H.
    destruct (float_above_zero x Hx) as [-> | (m & e & ->)].
    + injection H as <- <-. left. exists OverflowError. split; reflexivity.
    + unfold time_sleep_float in H.
      match type of H with context [if ?b then _ else _] => destruct b end.
      * injection H as <- <-. left. exists OverflowError. split; reflexivity.
      * destruct (sleeping_outcomes _ _ _ _ H) as [(_ & -> & ->) | (e' & _ & -> & ->)].
        -- right. exists (Float64.to_Q (S754_finite false m e)).
           split; [apply to_Q_positive | split; reflexivity].
        -- left. exists e'. split; reflexivity.
Qed.

Lemma check_rate_limit_unanswered (t : trace) (e : exn) :
  server E t rate_limit_request = Raise e ->
  check_rate_limit E t = (Raises e, probed t).
Proof.
  intros H. unfold check_rate_limit. rewrite bind_session_get, H. reflexivity.
Qed.

Lemma check_rate_limit_not_200 (t : trace) (resp : response) :
  server E t rate_limit_request = Ok resp ->
  status_code resp <> 200%Z ->
  check_rate_limit E t = (Returns tt, probed t).
Proof.
  intros H Hs. unfold check_rate_limit. rewrite bind_session_get, H. run.
  destruct (Z.eqb_spec (status_code resp) 200); [contradiction | reflexivity].
Qed.

(** The guard after a 200 answer, with the probe already in the history. *)
Lemma check_rate_limit_200 (t : trace) (resp : response) :
  server E t rate_limit_request = Ok resp ->
  status_code resp = 200%Z ->
  check_rate_limit E t =
  (remaining <- lift (core_field (body resp) (py "remaining")) ;;
   reset_time <- lift (core_field (body resp) (py "reset")) ;;
   remaining_number <- lift (Json.as_number remaining) ;;
   if Number.lt_int remaining_number 10 then
     now <- time_time E ;;
     reset_number <- lift (Json.as_number reset_time) ;;
     difference <- lift (Number.sub_int reset_number now) ;;
     wait_time <- lift (Number.add_int difference 10) ;;
     if Number.gt_int wait_time 0 then time_sleep_number E wait_time
     else ret tt
   else ret tt) (probed t).
Proof.
  intros H Hs. unfold check_rate_limit. rewrite bind_session_get, H. run.
  rewrite Hs. reflexivity.
Qed.

Lemma check_rate_limit_enough (t : trace) (resp : response) (remaining reset : json)
    (r : number) :
  server E t rate_limit_request = Ok resp ->
  status_code resp = 200%Z ->
  core_field (body resp) (py "remaining") = Ok remaining ->
  core_field (body resp) (py "reset") = Ok reset ->
  Json.as_number remaining = Ok r ->
  Number.lt_int r 10 = false ->
  check_rate_limit E t = (Returns tt, probed t).
Proof.
  intros H Hs Hrem Hreset Hr Hge.
  rewrite (check_rate_limit_200 t resp H Hs), Hrem, Hreset. run.
  rewrite Hr. run. rewrite Hge. reflexivity.
Qed.

Lemma check_rate_limit_low (t : trace) (resp : response) (remaining reset : json)
    (r s : number) :
  server E t rate_limit_request = Ok resp ->
  status_code resp = 200%Z ->
  core_field (body resp) (py "remaining") = Ok remaining ->
  core_field (body resp) (py "reset") = Ok reset ->
  Json.as_number remaining = Ok r ->
  Number.lt_int r 10 = true ->
  Json.as_number reset = Ok s ->
  check_rate_limit E t =
  (difference <- lift (Number.sub_int s (clock E (probed t))) ;;
   wait_time <- lift (Number.add_int difference 10) ;;
   if Number.gt_int wait_time 0 then time_sleep_number E wait_time
   else ret tt) (probed t).
Proof.
  intros H Hs Hrem Hreset Hr Hlt Hreset_number.
  rewrite (check_rate_limit_200 t resp H Hs), Hrem, Hreset. run.
  rewrite Hr. run. rewrite Hlt.
  unfold bind at 1. unfold time_time. rewrite Hreset_number. run. reflexivity.
Qed.

(** Whatever the outcome, the guard adds its probe to the history and
    then nothing, or one sleep of a positive duration after which it
    returns. *)
Lemma check_rate_limit_outcomes (t : trace) (o : outcome unit) (t' : trace) :
  check_rate_limit E t = (o, t') ->
  t' = probed t \/
  exists q, (0 < q)%Q /\ o = Returns tt /\ t' = probed t ++ [Sleep q].
Proof.
  unfold check_rate_limit. rewrite bind_session_get. fold (probed t).
  destruct (server E t rate_limit_request) as [resp | e]; run;
    [| intros H; injection H as <- <-; left; reflexivity].
  destruct (status_code resp =? 200)%Z;
    [| intros H; injection H as <- <-; left; reflexivity].
  destruct (core_field (body resp) (py "remaining")) as [remaining | e]; run;
    [| intros H; injection H as <- <-; left; reflexivity].
  destruct (core_field (body resp) (py "reset")) as [reset | e]; run;
    [| intros H; injection H as <- <-; left; reflexivity].
  destruct (Json.as_number remaining) as [r | e]; run;
    [| intros H; injection H as <- <-; left; reflexivity].
  destruct (Number.lt_int r 10);
    [| intros H; injection H as <- <-; left; reflexivity].
  unfold bind at 1. unfold time_time.
  destruct (Json.as_number reset) as [s | e]; run;
    [| intros H; injection H as <- <-; left; reflexivity].
  destruct (Number.sub_int s (clock E (probed t))) as [d | e]; run;
    [| intros H; injection H as <- <-; left; reflexivity].
  destruct (Number.add_int d 10) as [w | e]; run;
    [| intros H; injection H as <- <-; left; reflexivity].
  destruct (Number.gt_int w 0) eqn:Hw;
    [| intros H; injection H as <- <-; left; reflexivity].
  intros H.
  destruct (time_sleep_number_outcomes w (probed t) o t' Hw H)
    as [(e & -> & ->) | (q & Hq & -> & ->)].
  - left. reflexivity.
  - right. exists q. split; [exact Hq | split; reflexivity].
Qed.

(** The guard has no loop: it returns or raises. *)
Lemma time_sleep_number_answers (w : number) (t : trace) :
  fst (time_sleep_number E w t) <> OutOfFuel.
Proof.
  assert (Hsleeping : forall q, fst (sleeping E q t) <> OutOfFuel).
  { intros q. unfold sleeping. destruct (sleep_result E t q); discriminate. }
  destruct w as [n | x]; cbn [time_sleep_number].
  - unfold time_sleep. cbv zeta.
    match goal with |- context [if ?b then _ else _] => destruct b end;
      [apply Hsleeping | discriminate].
  - unfold time_sleep_float. destruct x; try discriminate;
      match goal with |- context [if ?b then _ else _] => destruct b end;
      try discriminate; apply Hsleeping.
Qed.

Lemma check_rate_limit_answers (t : trace) :
  fst (check_rate_limit E t) <> OutOfFuel.
Proof.
  unfold check_rate_limit. rewrite bind_session_get.
  destruct (server E t rate_limit_request) as [resp | e]; run; [| discriminate].
  destruct (status_code resp =? 200)%Z; [| discriminate].
  destruct (core_field (body resp) (py "remaining")) as [remaining | e]; run;
    [| discriminate].
  destruct (core_field (body resp) (py "reset")) as [reset | e]; run; [| discriminate].
  destruct (Json.as_number remaining) as [r | e]; run; [| discriminate].
  destruct (Number.lt_int r 10); [| discriminate].
  unfold bind at 1. unfold time_time.
  destruct (Json.as_number reset) as [s | e]; run; [| discriminate].
  destruct (Number.sub_int s _) as [d | e]; run; [| discriminate].
  destruct (Number.add_int d 10) as [w | e]; run; [| discriminate].
  destruct (Number.gt_int w 0); [apply time_sleep_number_answers | discriminate].
Qed.

(** The guard sends its probe and no other request. *)
Lemma check_rate_limit_trace (t : trace) :
  exists d, snd (check_rate_limit E t) = t ++ d /\ requests d = [rate_limit_request].
Proof.
  destruct (check_rate_limit E t) as [o t'] eqn:H.
  destruct (check_rate_limit_outcomes t o t' H) as [-> | (q & _ & _ & ->)].
  - exists [Get rate_limit_request]. split; reflexivity.
  - exists [Get rate_limit_request; Sleep q]. unfold probed.
    rewrite <- app_assoc. split; reflexivity.
Qed.

(** C7, as the code has it.  Once the quota probe is answered, a status
    other than 200 gives no wait and a normal return; so does a 200 with
    an integer [remaining] of at least 10 (and a [reset] field).  With
    integer [remaining] below 10 and integer [reset], the guard does not
    wait when [reset - now + 10] is not positive; when it is positive the
    guard calls [time.sleep] with exactly that many seconds and ends as
    that call ends: it returns after a wait of that length when the sleep
    is carried out, it raises what the sleep raises, without any wait,
    when the operating system refuses it, and it raises [OverflowError],
    without any wait, beyond 9223372036 seconds.  Nothing but the probe
    and that one wait happens. *)
Theorem check_rate_limit_cases (t : trace) (resp : response) :
  server E t rate_limit_request = Ok resp ->
  (status_code resp <> 200%Z -> check_rate_limit E t = (Returns tt, probed t)) /\
  (forall remaining reset,
     status_code resp = 200%Z ->
     core_field (body resp) (py "remaining") = Ok (JNum remaining) ->
     core_field (body resp) (py "reset") = Ok (JNum reset) ->
     let wait_time := (reset - clock E (probed t) + 10)%Z in
     ((10 <= remaining)%Z -> check_rate_limit E t = (Returns tt, probed t)) /\
     ((remaining < 10)%Z -> (wait_time <= 0)%Z ->
        check_rate_limit E t = (Returns tt, probed t)) /\
     ((remaining < 10)%Z -> (0 < wait_time)%Z ->
        check_rate_limit E t = time_sleep E (inject_Z wait_time) (probed t)) /\
     ((remaining < 10)%Z -> (0 < wait_time <= 9223372036)%Z ->
        sleep_result E (probed t) (inject_Z wait_time) = Ok tt ->
        check_rate_limit E t =
        (Returns tt, probed t ++ [Sleep (inject_Z wait_time)])) /\
     ((remaining < 10)%Z -> (0 < wait_time <= 9223372036)%Z ->
        forall e, sleep_result E (probed t) (inject_Z wait_time) = Raise e ->
        check_rate_limit E t = (Raises e, probed t)) /\
     ((remaining < 10)%Z -> (9223372036 < wait_time)%Z ->
        check_rate_limit E t = (Raises OverflowError, probed t))).
Proof.
  intros H. split; [exact (check_rate_limit_not_200 t resp H)|].
  intros remaining reset Hs Hrem Hreset wait_time.
  assert (Hlow : (remaining < 10)%Z ->
                 check_rate_limit E t =
                 if (wait_time >? 0)%Z
                 then time_sleep E (inject_Z wait_time) (probed t)
                 else (Returns tt, probed t)).
  { intros Hlt.
    rewrite (check_rate_limit_low t resp (JNum remaining) (JNum reset)
               (NInt remaining) (NInt reset) H Hs Hrem Hreset eq_refl
               (proj2 (Z.ltb_lt _ _) Hlt) eq_refl).
    cbn [Number.sub_int]. run. cbn [Number.add_int]. run.
    cbn [Number.gt_int time_sleep_number].
    fold wait_time. destruct (wait_time >? 0)%Z; reflexivity. }
  split; [| split; [| split; [| split; [| split]]]].
  - intros Hge.
    apply (check_rate_limit_enough t resp (JNum remaining) (JNum reset)
             (NInt remaining) H Hs Hrem Hreset eq_refl).
    apply Z.ltb_ge. exact Hge.
  - intros Hlt Hneg. rewrite (Hlow Hlt).
    destruct (Z.gtb_spec wait_time 0); [lia | reflexivity].
  - intros Hlt Hpos. rewrite (Hlow Hlt).
    destruct (Z.gtb_spec wait_time 0); [reflexivity | lia].
  - intros Hlt Hpos Hsleep. rewrite (Hlow Hlt).
    destruct (Z.gtb_spec wait_time 0); [| lia].
    rewrite time_sleep_within by lia. unfold sleeping. rewrite Hsleep. reflexivity.
  - intros Hlt Hpos e Hsleep. rewrite (Hlow Hlt).
    destruct (Z.gtb_spec wait_time 0); [| lia].
    rewrite time_sleep_within by lia. unfold sleeping. rewrite Hsleep. reflexivity.
  - intros Hlt Hbig. rewrite (Hlow Hlt).
    destruct (Z.gtb_spec wait_time 0); [| lia].
    apply time_sleep_beyond. exact Hbig.
Qed.

End Guard.

Lemma check_rate_limit_cases_witness :
  check_rate_limit (Examples.static_env [Examples.quota 3 1700000000] 1699999400) []
  = (Returns tt, [Get rate_limit_request; Sleep (inject_Z 610)])
  /\
  check_rate_limit (Examples.static_env [Examples.quota 3 1700000000000] 1699999400) []
  = (Raises OverflowError, [Get rate_limit_request]).
Proof.
  split.
  - pose (E := Examples.static_env [Examples.quota 3 1700000000] 1699999400).
    destruct (check_rate_limit_cases E []
                {| status_code := 200; body := Examples.quota_body 3 1700000000 |}
                eq_refl) as [_ H].
    destruct (H 3%Z 1700000000%Z eq_refl eq_refl eq_refl) as (_ & _ & _ & Hlow & _).
    apply Hlow; [reflexivity | split; [reflexivity | discriminate] | reflexivity].
  - pose (E := Examples.static_env [Examples.quota 3 1700000000000] 1699999400).
    destruct (check_rate_limit_cases E []
                {| status_code := 200; body := Examples.quota_body 3 1700000000000 |}
                eq_refl) as [_ H].
    destruct (H 3%Z 1700000000000%Z eq_refl eq_refl eq_refl) as (_ & _ & _ & _ & _ & Hbig).
    apply Hbig; reflexivity.
Defined.

(** C7, as stated, fails: "the guard never raises".  A 200 answer whose
    body lacks [resources] makes [data["resources"]] raise [KeyError], and
    a probe that gets no answer raises out of [session.get]; neither is
    caught on the way to the caller. *)
Lemma check_rate_limit_can_raise :
  fst (check_rate_limit
         (Examples.static_env
            [(rate_limit_request, Ok {| status_code := 200; body := JObj [] |})] 0) [])
  = Raises KeyError
  /\
  fst (check_rate_limit
         (Examples.static_env [(rate_limit_request, Raise ConnectionError)] 0) [])
  = Raises ConnectionError.
Proof. split; reflexivity. Qed.

(** ** Repository discovery *)

Section Discovery.

Variable E : env.
Variable self : analyzer.
Variable f : filters.

Lemma requests_app (t d : trace) : requests (t ++ d) = requests t ++ requests d.
Proof. unfold requests. apply flat_map_app. Qed.

(** One entry of the loop: appended when the rule keeps it. *)
Lemma filter_repos_object (fields : list (str * json)) (rest filtered_repos : list json) :
  filter_repos f (JObj fields :: rest) filtered_repos =
  filter_repos f rest
    (if kept f (JObj fields) then filtered_repos ++ [JObj fields] else filtered_repos).
Proof.
  cbn [filter_repos]. unfold kept, flag. cbn [Json.get rbind].
  destruct (Json.lookup (py "archived") fields) as [a|];
  destruct (Json.lookup (py "private") fields) as [p|];
  cbn [rbind Json.truthy];
  repeat match goal with
         | |- context [Json.truthy ?v] => destruct (Json.truthy v)
         end;
  destruct (include_archived f), (include_private f), (include_public f);
  reflexivity.
Qed.

(** The loop over a page of objects is [filter] with the rule [kept]. *)
Lemma filter_repos_spec (data filtered_repos : list json) :
  Forall Json.is_object data ->
  filter_repos f data filtered_repos = Ok (filtered_repos ++ filter (kept f) data).
Proof.
  intros Hobj. revert filtered_repos.
  induction Hobj as [|repo data Hrepo _ IH]; intros acc.
  - simpl. rewrite app_nil_r. reflexivity.
  - destruct repo as [| | | | | |fields]; try contradiction.
    rewrite filter_repos_object, IH. cbn [filter].
    destruct (kept f (JObj fields)); [rewrite <- app_assoc|]; reflexivity.
Qed.

Lemma kept_iff (repo : json) :
  kept f repo = true <->
  (flag repo (py "archived") = true -> include_archived f = true) /\
  (flag repo (py "private") = true -> include_private f = true) /\
  (flag repo (py "private") = false -> include_public f = true).
Proof.
  unfold kept.
  destruct (flag repo (py "archived")), (flag repo (py "private")),
    (include_archived f), (include_private f), (include_public f);
    cbn [andb negb implb]; intuition congruence.
Qed.

(** One iteration, once the guard has returned and the page is answered. *)
Lemma loop_answered (fuel : nat) (repositories : list json) (page : Z)
    (t t1 : trace) (resp : response) :
  check_rate_limit E t = (Returns tt, t1) ->
  server E t1 (listing_request self page) = Ok resp ->
  get_repositories_loop E self f (S fuel) repositories page t =
  (if negb (status_code resp =? 200)%Z then ret repositories
   else if negb (Json.truthy (body resp)) then ret repositories
   else
     items <- lift (Json.iterate (body resp)) ;;
     filtered_repos <- lift (filter_repos f items []) ;;
     n <- lift (Json.len (body resp)) ;;
     if (n <? per_page)%Z then ret (repositories ++ filtered_repos)
     else get_repositories_loop E self f fuel (repositories ++ filtered_repos) (page + 1))
    (t1 ++ [Get (listing_request self page)]).
Proof.
  intros Hg Hs. cbn [get_repositories_loop].
  rewrite (bind_returns _ _ _ _ _ Hg), bind_session_get, Hs. reflexivity.
Qed.

Lemma loop_not_200 (fuel : nat) (repositories : list json) (page : Z)
    (t t1 : trace) (resp : response) :
  check_rate_limit E t = (Returns tt, t1) ->
  server E t1 (listing_request self page) = Ok resp ->
  status_code resp <> 200%Z ->
  get_repositories_loop E self f (S fuel) repositories page t =
  (Returns repositories, t1 ++ [Get (listing_request self page)]).
Proof.
  intros Hg Hs Hne. rewrite (loop_answered _ _ _ _ _ _ Hg Hs).
  destruct (Z.eqb_spec (status_code resp) 200); [contradiction | reflexivity].
Qed.

Lemma loop_empty_page (fuel : nat) (repositories : list json) (page : Z)
    (t t1 : trace) (resp : response) :
  check_rate_limit E t = (Returns tt, t1) ->
  server E t1 (listing_request self page) = Ok resp ->
  status_code resp = 200%Z ->
  Json.truthy (body resp) = false ->
  get_repositories_loop E self f (S fuel) repositories page t =
  (Returns repositories, t1 ++ [Get (listing_request self page)]).
Proof.
  intros Hg Hs H200 Hempty. rewrite (loop_answered _ _ _ _ _ _ Hg Hs).
  rewrite H200, Hempty. reflexivity.
Qed.

(** A non-empty page of objects: the kept entries are appended, and the
    loop ends or goes on with the next page number by the raw length. *)
Lemma loop_page (fuel : nat) (repositories : list json) (page : Z)
    (t t1 : trace) (items : list json) :
  check_rate_limit E t = (Returns tt, t1) ->
  server E t1 (listing_request self page)
    = Ok {| status_code := 200; body := JArr items |} ->
  items <> [] ->
  Forall Json.is_object items ->
  get_repositories_loop E self f (S fuel) repositories page t =
  if (Z.of_nat (length items) <? per_page)%Z
  then (Returns (repositories ++ filter (kept f) items),
        t1 ++ [Get (listing_request self page)])
  else get_repositories_loop E self f fuel (repositories ++ filter (kept f) items)
         (page + 1) (t1 ++ [Get (listing_request self page)]).
Proof.
  intros Hg Hs Hne Hobj. rewrite (loop_answered _ _ _ _ _ _ Hg Hs).
  cbn [status_code body Z.eqb Pos.eqb negb Json.truthy].
  destruct items as [|x items]; [contradiction|].
  cbn [negb Json.iterate Json.len]. unfold bind, lift.
  rewrite (filter_repos_spec _ _ Hobj). cbn [app].
  destruct (Z.of_nat (length (x :: items)) <? per_page)%Z; reflexivity.
Qed.

(** A run of full pages takes as many iterations and accumulates the
    kept entries of each page, page after page. *)
Lemma loop_full_pages (t : trace) (page : Z) (pages : list (list json)) (t' : trace) :
  full_pages E self t page pages t' ->
  forall fuel repositories,
    get_repositories_loop E self f (length pages + fuel) repositories page t =
    get_repositories_loop E self f fuel
      (repositories ++ flat_map (filter (kept f)) pages)
      (page + Z.of_nat (length pages)) t'.
Proof.
  induction 1 as [t page | t page t1 items rest t' Hg Hs Hlen Hobj _ IH];
    intros fuel repositories.
  - cbn [length flat_map Nat.add]. rewrite app_nil_r, Z.add_0_r. reflexivity.
  - cbn [length Nat.add flat_map].
    assert (Hne : items <> []).
    { intros ->. unfold per_page in Hlen. simpl in Hlen. lia. }
    rewrite (loop_page _ _ _ _ _ _ Hg Hs Hne Hobj).
    destruct (Z.ltb_spec (Z.of_nat (length items)) per_page); [lia|].
    rewrite IH, <- app_assoc. f_equal. lia.
Qed.

(** The requests of a run of full pages: probe, page, probe, page, ... *)
Lemma full_pages_requests (t : trace) (page : Z) (pages : list (list json)) (t' : trace) :
  full_pages E self t page pages t' ->
  requests t' = requests t ++ discovery_requests self page (length pages).
Proof.
  induction 1 as [t page | t page t1 items rest t' Hg Hs Hlen Hobj _ IH].
  - unfold discovery_requests. simpl. rewrite app_nil_r. reflexivity.
  - rewrite IH. destruct (check_rate_limit_trace E t) as (d & Hd & Hreq).
    rewrite Hg in Hd. simpl in Hd. subst t1.
    rewrite !requests_app, Hreq. unfold discovery_requests. simpl.
    rewrite <- !app_assoc. reflexivity.
Qed.

Lemma discovery_requests_snoc (p : Z) (n : nat) :
  discovery_requests self p (S n) =
  discovery_requests self p n
    ++ [rate_limit_request; listing_request self (p + Z.of_nat n)].
Proof.
  unfold discovery_requests. revert p. induction n as [|n IH]; intros p.
  - simpl. rewrite Z.add_0_r. reflexivity.
  - change (page_numbers p (S (S n))) with (p :: page_numbers (p + 1) (S n)).
    change (page_numbers p (S n)) with (p :: page_numbers (p + 1) n).
    cbn [flat_map]. rewrite IH, <- app_assoc.
    replace (p + 1 + Z.of_nat n)%Z with (p + Z.of_nat (S n))%Z by lia.
    reflexivity.
Qed.

Lemma last_iteration_requests (t0 t' t1 : trace) (pages : list (list json)) :
  full_pages E self t0 1 pages t' ->
  check_rate_limit E t' = (Returns tt, t1) ->
  requests (t1 ++ [Get (listing_request self (1 + Z.of_nat (length pages)))])
  = requests t0 ++ discovery_requests self 1 (S (length pages)).
Proof.
  intros Hfull Hg. destruct (check_rate_limit_trace E t') as (d & Hd & Hreq).
  rewrite Hg in Hd. simpl in Hd. subst t1.
  rewrite !requests_app, Hreq, (full_pages_requests _ _ _ _ Hfull).
  rewrite discovery_requests_snoc, <- !app_assoc. reflexivity.
Qed.

(** C3. Over a page of listing entries, the filtering loop returns the
    entries that satisfy the rule, in listing order: an entry is kept if
    and only if archived implies [include_archived], private implies
    [include_private] and not private implies [include_public]; without
    [include_private] no private entry is kept, archived or not; and an
    iteration of discovery appends the kept entries of its page, in that
    order, to what it has accumulated. *)
Theorem discovery_keeps_by_rule (page : list json) :
  Forall Json.is_object page ->
  filter_repos f page [] = Ok (filter (kept f) page) /\
  (forall repo,
     In repo (filter (kept f) page) <->
     In repo page /\
     (flag repo (py "archived") = true -> include_archived f = true) /\
     (flag repo (py "private") = true -> include_private f = true) /\
     (flag repo (py "private") = false -> include_public f = true)) /\
  (include_private f = false ->
   forall repo, In repo (filter (kept f) page) -> flag repo (py "private") = false) /\
  (forall fuel repositories n t t1,
     check_rate_limit E t = (Returns tt, t1) ->
     server E t1 (listing_request self n)
       = Ok {| status_code := 200; body := JArr page |} ->
     page <> [] ->
     get_repositories_loop E self f (S fuel) repositories n t =
     if (Z.of_nat (length page) <? per_page)%Z
     then (Returns (repositories ++ filter (kept f) page),
           t1 ++ [Get (listing_request self n)])
     else get_repositories_loop E self f fuel
            (repositories ++ filter (kept f) page) (n + 1)
            (t1 ++ [Get (listing_request self n)])).
Proof.
  intros Hobj. split; [exact (filter_repos_spec page [] Hobj)|].
  split; [| split].
  - intros repo. rewrite filter_In, kept_iff. reflexivity.
  - intros Hpriv repo Hin. apply filter_In in Hin. destruct Hin as [_ Hk].
    apply kept_iff in Hk. destruct Hk as (_ & Hp & _).
    destruct (flag repo (py "private")); [| reflexivity].
    rewrite Hp in Hpriv by reflexivity. discriminate.
  - intros fuel repositories n t t1 Hg Hs Hne.
    exact (loop_page fuel repositories n t t1 page Hg Hs Hne Hobj).
Qed.

(** C4. Discovery asks for pages of 100 and counts its pages up from 1.
    After any number of full pages, the next page ends the loop at once
    when it is empty, and ends it after its kept entries have been
    accumulated when it is not empty but shorter than 100: the result is
    returned with enough fuel for the pages, and the last request made is
    the one for that page. *)
Theorem pagination_ends (t0 t' t1 : trace) (pages : list (list json))
    (resp : response) :
  full_pages E self t0 1 pages t' ->
  check_rate_limit E t' = (Returns tt, t1) ->
  server E t1 (listing_request self (1 + Z.of_nat (length pages))) = Ok resp ->
  status_code resp = 200%Z ->
  let final := t1 ++ [Get (listing_request self (1 + Z.of_nat (length pages)))] in
  (forall p, params (listing_request self p)
             = [ (py "page", PInt p); (py "per_page", PInt 100);
                 (py "type", PStr (py "all")); (py "sort", PStr (py "name")) ]) /\
  requests final = requests t0 ++ discovery_requests self 1 (S (length pages)) /\
  (body resp = JArr [] ->
   forall fuel, (length pages < fuel)%nat ->
     get_repositories E self fuel f t0
     = (Returns (flat_map (filter (kept f)) pages), final)) /\
  (forall items,
     body resp = JArr items -> items <> [] ->
     (Z.of_nat (length items) < 100)%Z ->
     Forall Json.is_object items ->
     forall fuel, (length pages < fuel)%nat ->
       get_repositories E self fuel f t0
       = (Returns (flat_map (filter (kept f)) pages ++ filter (kept f) items), final)).
Proof.
  intros Hfull Hg Hs H200 final. split; [reflexivity|].
  split; [exact (last_iteration_requests t0 t' t1 pages Hfull Hg)|].
  split.
  - intros Hbody fuel Hfuel. unfold get_repositories.
    replace fuel with (length pages + S (fuel - S (length pages)))%nat by lia.
    rewrite (loop_full_pages _ _ _ _ Hfull).
    apply (loop_empty_page _ _ _ _ _ resp Hg Hs H200).
    rewrite Hbody. reflexivity.
  - intros items Hbody Hne Hshort Hobj fuel Hfuel. unfold get_repositories.
    replace fuel with (length pages + S (fuel - S (length pages)))%nat by lia.
    rewrite (loop_full_pages _ _ _ _ Hfull).
    destruct resp as [status data]. cbn [status_code body] in H200, Hbody. subst.
    rewrite (loop_page _ _ _ _ _ items Hg Hs Hne Hobj).
    unfold per_page. destruct (Z.ltb_spec (Z.of_nat (length items)) 100); [reflexivity | lia].
Qed.

(** C6. When the request for a listing page is answered with a status
    other than 200, discovery returns normally what it accumulated from
    the pages before it; that page has been requested once, and no
    request follows it. *)
Theorem listing_failure_returns_accumulated (t0 t' t1 : trace)
    (pages : list (list json)) (resp : response) :
  full_pages E self t0 1 pages t' ->
  check_rate_limit E t' = (Returns tt, t1) ->
  server E t1 (listing_request self (1 + Z.of_nat (length pages))) = Ok resp ->
  status_code resp <> 200%Z ->
  let final := t1 ++ [Get (listing_request self (1 + Z.of_nat (length pages)))] in
  requests final = requests t0 ++ discovery_requests self 1 (S (length pages)) /\
  forall fuel, (length pages < fuel)%nat ->
    get_repositories E self fuel f t0
    = (Returns (flat_map (filter (kept f)) pages), final).
Proof.
  intros Hfull Hg Hs Hne final.
  split; [exact (last_iteration_requests t0 t' t1 pages Hfull Hg)|].
  intros fuel Hfuel. unfold get_repositories.
  replace fuel with (length pages + S (fuel - S (length pages)))%nat by lia.
  rewrite (loop_full_pages _ _ _ _ Hfull).
  exact (loop_not_200 _ _ _ _ _ resp Hg Hs Hne).
Qed.

End Discovery.

Lemma full_page_objects : Forall Json.is_object Examples.full_page.
Proof.
  apply Forall_forall. intros x Hx. apply repeat_spec in Hx. subst x. exact I.
Defined.

Lemma full_page_served (E : env) :
  check_rate_limit E [] = (Returns tt, [Get rate_limit_request]) ->
  server E [Get rate_limit_request] (listing_request Examples.acme 1)
    = Ok {| status_code := 200; body := JArr Examples.full_page |} ->
  full_pages E Examples.acme [] 1 [Examples.full_page]
    [Get rate_limit_request; Get (listing_request Examples.acme 1)].
Proof.
  intros Hg Hs.
  apply (full_pages_cons E Examples.acme [] 1 [Get rate_limit_request]
           Examples.full_page [] _ Hg Hs).
  - vm_compute. discriminate.
  - exact full_page_objects.
  - apply full_pages_nil.
Defined.

Lemma discovery_keeps_by_rule_witness :
  filter_repos Examples.public_only Examples.mixed_page []
  = Ok [Examples.repo_entry "api" false false].
Proof.
  assert (Hobj : Forall Json.is_object Examples.mixed_page)
    by (repeat constructor).
  destruct (discovery_keeps_by_rule Examples.plain Examples.acme Examples.public_only
              Examples.mixed_page Hobj) as [H _].
  exact H.
Defined.

Lemma pagination_ends_witness :
  get_repositories Examples.two_pages Examples.acme 2 Examples.public_only []
  = (Returns (Examples.full_page ++ [Examples.repo_entry "api" false false]),
     [ Get rate_limit_request; Get (listing_request Examples.acme 1);
       Get rate_limit_request; Get (listing_request Examples.acme 2) ]).
Proof.
  assert (Hobj : Forall Json.is_object Examples.mixed_page)
    by (repeat constructor).
  destruct (pagination_ends Examples.two_pages Examples.acme Examples.public_only
              [] _ _ [Examples.full_page]
              {| status_code := 200; body := JArr Examples.mixed_page |}
              (full_page_served Examples.two_pages eq_refl eq_refl)
              eq_refl eq_refl eq_refl) as (_ & _ & _ & H).
  rewrite (H Examples.mixed_page eq_refl ltac:(discriminate) ltac:(reflexivity) Hobj 2%nat
             ltac:(simpl; lia)).
  reflexivity.
Defined.

Lemma listing_failure_returns_accumulated_witness :
  get_repositories Examples.then_failure Examples.acme 2 Examples.all_repos []
  = (Returns Examples.full_page,
     [ Get rate_limit_request; Get (listing_request Examples.acme 1);
       Get rate_limit_request; Get (listing_request Examples.acme 2) ]).
Proof.
  destruct (listing_failure_returns_accumulated Examples.then_failure Examples.acme
              Examples.all_repos [] _ _ [Examples.full_page]
              {| status_code := 502;
                 body := JObj [(py "message", JStr (py "Bad Gateway"))] |}
              (full_page_served Examples.then_failure eq_refl eq_refl)
              eq_refl eq_refl ltac:(discriminate)) as [_ H].
  rewrite (H 2%nat ltac:(simpl; lia)).
  vm_compute. reflexivity.
Defined.

(** ** The CODEOWNERS locator *)

Section Locator.

Variable E : env.
Variable self : analyzer.
Variable repo_name : json.

Local Abbreviation probe := (contents_request E self repo_name).

(** A candidate answered with another status: on to the next one. *)
Lemma probe_other_status (location : str) (rest : list str) (t : trace) :
  other_status (server E t (probe location)) ->
  probe_locations E self repo_name (location :: rest) t
  = probe_locations E self repo_name rest (t ++ [Get (probe location)]).
Proof.
  intros (resp & Hs & Hne). cbn [probe_locations].
  rewrite bind_session_get, Hs. run.
  destruct (Z.eqb_spec (status_code resp) 200); [contradiction | reflexivity].
Qed.

(** A 200 without a payload: on to the next one, in the same way. *)
Lemma probe_no_payload (location : str) (rest : list str) (t : trace) :
  no_payload (server E t (probe location)) ->
  probe_locations E self repo_name (location :: rest) t
  = probe_locations E self repo_name rest (t ++ [Get (probe location)]).
Proof.
  intros (resp & v & Hs & H200 & Hget & Hv). cbn [probe_locations].
  rewrite bind_session_get, Hs. run.
  rewrite H200, Hget. cbn [Z.eqb Pos.eqb]. run. rewrite Hv. reflexivity.
Qed.

(** A 200 with a payload: decoded and returned with its location. *)
Lemma probe_found (location : str) (rest : list str) (t : trace) (content : str) :
  found E (server E t (probe location)) content ->
  probe_locations E self repo_name (location :: rest) t
  = (Returns (Some content, Some location), t ++ [Get (probe location)]).
Proof.
  intros (resp & payload & Hs & H200 & Hget & Hne & Hdec). cbn [probe_locations].
  rewrite bind_session_get, Hs. run.
  rewrite H200, Hget. cbn [Z.eqb Pos.eqb]. run.
  destruct payload as [|c payload]; [contradiction|]. cbn [Json.truthy is_empty negb].
  destruct (body resp) as [| | | | | |fields]; try discriminate.
  cbn [Json.get Json.subscript] in Hget |- *.
  destruct (Json.lookup (py "content") fields) as [x|]; [| discriminate].
  injection Hget as ->. run. cbn [decode_content]. rewrite Hdec. reflexivity.
Qed.

Lemma probe_passed_over (location : str) (rest : list str) (t : trace) :
  other_status (server E t (probe location)) \/ no_payload (server E t (probe location)) ->
  probe_locations E self repo_name (location :: rest) t
  = probe_locations E self repo_name rest (t ++ [Get (probe location)]).
Proof.
  intros [H | H]; [apply probe_other_status | apply probe_no_payload]; exact H.
Qed.

(** What the loop can return over any list of candidates. *)
Lemma probe_locations_shape (locs : list str) (t : trace) :
  match fst (probe_locations E self repo_name locs t) with
  | Returns (Some _, Some location) => In location locs
  | Returns (None, None) => True
  | Returns _ => False
  | Raises _ => True
  | OutOfFuel => False
  end.
Proof.
  revert t. induction locs as [|location rest IH]; intros t; [exact I|].
  assert (Hrest : forall t',
    match fst (probe_locations E self repo_name rest t') with
    | Returns (Some _, Some l) => In l (location :: rest)
    | Returns (None, None) => True
    | Returns _ => False
    | Raises _ => True
    | OutOfFuel => False
    end).
  { intros t'. specialize (IH t').
    destruct (fst (probe_locations E self repo_name rest t')) as [[[c|] [l|]] | e |];
      try exact IH. right. exact IH. }
  cbn [probe_locations]. rewrite bind_session_get.
  destruct (server E t (probe location)) as [resp | e]; run; [| exact I].
  destruct (status_code resp =? 200)%Z; [| apply Hrest].
  destruct (Json.get (body resp) (py "content") JNull) as [v | e]; run; [| exact I].
  destruct (Json.truthy v); [| apply Hrest].
  destruct (Json.subscript (body resp) (py "content")) as [v' | e]; run; [| exact I].
  destruct (decode_content E v') as [content | e]; run; [| exact I].
  left. reflexivity.
Qed.

(** C2. The candidates are the three paths, in this order.  The locator
    returns the decoded content and the path of the first candidate that
    is answered with a 200 carrying a non-empty base64 payload, having
    requested the candidates up to that one and none after it; a
    candidate answered with another status (or with a 200 without a
    payload) is passed over and the next one is tried; when all three
    are passed over, nothing is found. *)
Theorem locator_first_match (t : trace) :
  let github := py ".github/CODEOWNERS" in
  let root := py "CODEOWNERS" in
  let docs := py "docs/CODEOWNERS" in
  let t1 := t ++ [Get (probe github)] in
  let t2 := t1 ++ [Get (probe root)] in
  let t3 := t2 ++ [Get (probe docs)] in
  let passed_over (a : result response) := other_status a \/ no_payload a in
  locations = [github; root; docs] /\
  (forall content,
     found E (server E t (probe github)) content ->
     get_codeowners_content E self repo_name t
     = (Returns (Some content, Some github), t1)) /\
  (forall content,
     passed_over (server E t (probe github)) ->
     found E (server E t1 (probe root)) content ->
     get_codeowners_content E self repo_name t
     = (Returns (Some content, Some root), t2)) /\
  (forall content,
     passed_over (server E t (probe github)) ->
     passed_over (server E t1 (probe root)) ->
     found E (server E t2 (probe docs)) content ->
     get_codeowners_content E self repo_name t
     = (Returns (Some content, Some docs), t3)) /\
  (passed_over (server E t (probe github)) ->
   passed_over (server E t1 (probe root)) ->
   passed_over (server E t2 (probe docs)) ->
   get_codeowners_content E self repo_name t = (Returns (None, None), t3)).
Proof.
  intros github root docs t1 t2 t3 passed_over.
  unfold get_codeowners_content, locations. fold github root docs.
  split; [reflexivity|]. split; [| split; [| split]].
  - intros content H1. exact (probe_found _ _ _ _ H1).
  - intros content H1 H2. rewrite (probe_passed_over _ _ _ H1).
    exact (probe_found _ _ _ _ H2).
  - intros content H1 H2 H3. rewrite (probe_passed_over _ _ _ H1).
    fold t1. rewrite (probe_passed_over _ _ _ H2).
    exact (probe_found _ _ _ _ H3).
  - intros H1 H2 H3. rewrite (probe_passed_over _ _ _ H1).
    fold t1. rewrite (probe_passed_over _ _ _ H2).
    fold t2. rewrite (probe_passed_over _ _ _ H3). reflexivity.
Qed.

(** C9. A 200 whose body has no [content], or an empty one, is passed
    over exactly as an answer with another status is: the loop goes on
    with the remaining candidates.  The locator always comes back, and
    whenever it returns a pair, that pair is either a content together
    with one of the three locations, or nothing and nothing. *)
Theorem locator_pair_shape :
  (forall location rest t,
     no_payload (server E t (probe location)) ->
     probe_locations E self repo_name (location :: rest) t
     = probe_locations E self repo_name rest (t ++ [Get (probe location)])) /\
  (forall location rest t,
     other_status (server E t (probe location)) ->
     probe_locations E self repo_name (location :: rest) t
     = probe_locations E self repo_name rest (t ++ [Get (probe location)])) /\
  (forall t, fst (get_codeowners_content E self repo_name t) <> OutOfFuel) /\
  (forall t content location,
     fst (get_codeowners_content E self repo_name t) = Returns (content, location) ->
     (exists c l, content = Some c /\ location = Some l /\ In l locations) \/
     (content = None /\ location = None)).
Proof.
  split; [exact probe_no_payload|]. split; [exact probe_other_status|]. split.
  - intros t H. pose proof (probe_locations_shape locations t) as Hs.
    unfold get_codeowners_content in H. rewrite H in Hs. exact Hs.
  - intros t content location H.
    pose proof (probe_locations_shape locations t) as Hs.
    unfold get_codeowners_content in H. rewrite H in Hs.
    destruct content as [c|], location as [l|]; try contradiction.
    + left. exists c, l. repeat split. exact Hs.
    + right. split; reflexivity.
Qed.

(** The loop requests its candidates in order and stops at the first one
    that ends it. *)
Lemma probe_locations_prefix (locs : list str) :
  forall (t : trace) (o : outcome (option str * option str)) (t' : trace),
    probe_locations E self repo_name locs t = (o, t') ->
    exists k,
      (k <= length locs)%nat /\
      (locs <> [] -> (1 <= k)%nat) /\
      t' = t ++ map Get (firstn k (map probe locs)) /\
      (forall c l, o = Returns (c, Some l) ->
                   (1 <= k)%nat /\ nth_error locs (k - 1) = Some l) /\
      (forall c, o = Returns (c, None) -> k = length locs).
Proof.
  induction locs as [|location rest IH]; intros t o t' H.
  - cbn in H. injection H as <- <-. exists 0%nat. rewrite app_nil_r.
    split; [lia|]. split; [congruence|]. split; [reflexivity|].
    split; [discriminate | reflexivity].
  - assert (Hstop : forall o0,
              (forall c, o0 <> Returns (c, None)) ->
              (forall c l, o0 = Returns (c, Some l) -> l = location) ->
              (o0, t ++ [Get (probe location)]) = (o, t') ->
              exists k,
                (k <= length (location :: rest))%nat /\
                (location :: rest <> [] -> (1 <= k)%nat) /\
                t' = t ++ map Get (firstn k (map probe (location :: rest))) /\
                (forall c l, o = Returns (c, Some l) ->
                   (1 <= k)%nat /\ nth_error (location :: rest) (k - 1) = Some l) /\
                (forall c, o = Returns (c, None) -> k = length (location :: rest))).
    { intros o0 Hnone Hsome Ho. injection Ho as <- <-. exists 1%nat.
      split; [cbn; lia|]. split; [lia|]. split; [reflexivity|]. split.
      - intros c l Hcl. rewrite (Hsome c l Hcl). split; [lia | reflexivity].
      - intros c Hc. exfalso. exact (Hnone c Hc). }
    assert (Hnext : probe_locations E self repo_name rest (t ++ [Get (probe location)])
                    = (o, t') ->
              exists k,
                (k <= length (location :: rest))%nat /\
                (location :: rest <> [] -> (1 <= k)%nat) /\
                t' = t ++ map Get (firstn k (map probe (location :: rest))) /\
                (forall c l, o = Returns (c, Some l) ->
                   (1 <= k)%nat /\ nth_error (location :: rest) (k - 1) = Some l) /\
                (forall c, o = Returns (c, None) -> k = length (location :: rest))).
    { intros Hrest. destruct (IH _ _ _ Hrest) as (k & Hk & _ & -> & Hsome & Hnone).
      exists (S k). split; [cbn; lia|]. split; [lia|].
      split; [cbn [map firstn]; rewrite <- app_assoc; reflexivity|]. split.
      - intros c l Hcl. destruct (Hsome c l Hcl) as [Hk1 Hnth]. split; [lia|].
        destruct k as [|k]; [lia|]. cbn [Nat.sub nth_error] in Hnth |- *.
        rewrite Nat.sub_0_r in Hnth. exact Hnth.
      - intros c Hc. rewrite (Hnone c Hc). reflexivity. }
    cbn [probe_locations] in H. rewrite bind_session_get in H.
    destruct (server E t (probe location)) as [resp | e]; run_in H;
      [| refine (Hstop _ _ _ H); intros; discriminate].
    destruct (status_code resp =? 200)%Z; [| exact (Hnext H)].
    destruct (Json.get (body resp) (py "content") JNull) as [v | e]; run_in H;
      [| refine (Hstop _ _ _ H); intros; discriminate].
    destruct (Json.truthy v); [| exact (Hnext H)].
    destruct (Json.subscript (body resp) (py "content")) as [v' | e]; run_in H;
      [| refine (Hstop _ _ _ H); intros; discriminate].
    destruct (decode_content E v') as [content | e]; run_in H;
      [| refine (Hstop _ _ _ H); intros; discriminate].
    refine (Hstop _ _ _ H); [intros; discriminate | intros c l Hcl; congruence].
Qed.

End Locator.

Lemma locator_first_match_witness :
  get_codeowners_content Examples.root_only Examples.acme Examples.svc []
  = (Returns (Some (py "* @alice
"), Some (py "CODEOWNERS")),
     [ Get (contents_request Examples.root_only Examples.acme Examples.svc
              (py ".github/CODEOWNERS"));
       Get (contents_request Examples.root_only Examples.acme Examples.svc
              (py "CODEOWNERS")) ]).
Proof.
  destruct (locator_first_match Examples.root_only Examples.acme Examples.svc [])
    as (_ & _ & H & _).
  apply H.
  - left. exists Examples.not_found. split; [reflexivity | discriminate].
  - eexists _, (py "KiBAYWxpY2UK").
    split; [reflexivity|]. split; [reflexivity|]. split; [reflexivity|].
    split; [discriminate | reflexivity].
Defined.

Lemma locator_pair_shape_witness :
  get_codeowners_content Examples.empty_then_root Examples.acme Examples.svc []
  = (Returns (Some (py "* @bob
"), Some (py "CODEOWNERS")),
     [ Get (contents_request Examples.empty_then_root Examples.acme Examples.svc
              (py ".github/CODEOWNERS"));
       Get (contents_request Examples.empty_then_root Examples.acme Examples.svc
              (py "CODEOWNERS")) ]).
Proof.
  destruct (locator_pair_shape Examples.empty_then_root Examples.acme Examples.svc)
    as (Hskip & _ & _ & _).
  unfold get_codeowners_content, locations. rewrite Hskip; [reflexivity|].
  eexists _, (JStr []).
  split; [reflexivity|]. split; [reflexivity|]. split; reflexivity.
Defined.

(** ** Report assembly *)

Section Report.

Variable E : env.
Variable self : analyzer.

Lemma assemble_missing (url name : json) (content location : option str) :
  has_codeowner_file (assemble url name content location) = false ->
  codeowners_file_location (assemble url name content location) = None /\
  primary_owner (assemble url name content location) = no_codeowners_file.
Proof.
  unfold assemble. destruct content as [[|c s]|]; cbn; try discriminate;
    intros _; split; reflexivity.
Qed.

Lemma assemble_no_owner (url name : json) (location : option str) (s : str) :
  parse_primary_codeowner s = None ->
  primary_owner (assemble url name (Some s) location) = no_codeowners_file.
Proof.
  intros H. unfold assemble. destruct s as [|c s]; [reflexivity|].
  rewrite H. reflexivity.
Qed.

Lemma skipped_not_qualifying (x : str) : skipped x = true -> qualifying x = false.
Proof. intros H. unfold qualifying. rewrite H. reflexivity. Qed.

(** One iteration of the per-repository loop: the row assembled from
    what the locator returned goes at the end of the results. *)
Lemma analyze_loop_step (i : Z) (repo : json) (rest : list json)
    (results : list analysis_record) (t t1 t2 : trace) (name url : json)
    (content location : option str) :
  Json.subscript repo (py "name") = Ok name ->
  Json.subscript repo (py "html_url") = Ok url ->
  (if (i mod 50 =? 0)%Z then check_rate_limit E else ret tt) t = (Returns tt, t1) ->
  get_codeowners_content E self name t1 = (Returns (content, location), t2) ->
  analyze_loop E self i (repo :: rest) results t
  = analyze_loop E self (i + 1) rest
      (results ++ [assemble url name content location]) (t2 ++ [Sleep (1 # 10)]).
Proof.
  intros Hname Hurl Hg Hloc. cbn [analyze_loop]. rewrite Hname, Hurl. run.
  rewrite (bind_returns _ _ _ _ _ Hg), (bind_returns _ _ _ _ _ Hloc).
  reflexivity.
Qed.

(** The rows of a completed loop: one per repository, each assembled
    from some answer of the locator. *)
Lemma analyze_loop_records (repositories : list json) :
  forall (i : Z) (results : list analysis_record) (t : trace)
         (records : list analysis_record),
    fst (analyze_loop E self i repositories results t) = Returns records ->
    exists rows,
      records = results ++ rows /\ length rows = length repositories /\
      Forall (fun r => exists url name content location,
                         r = assemble url name content location) rows.
Proof.
  induction repositories as [|repo rest IH]; intros i results t records H.
  - cbn in H. injection H as <-. exists []. rewrite app_nil_r.
    split; [reflexivity | split; [reflexivity | constructor]].
  - cbn [analyze_loop] in H.
    destruct (Json.subscript repo (py "name")) as [name | e]; run_in H;
      [| discriminate].
    destruct (Json.subscript repo (py "html_url")) as [url | e]; run_in H;
      [| discriminate].
    unfold bind at 1 in H.
    destruct ((if (i mod 50 =? 0)%Z then check_rate_limit E else ret tt) t)
      as [[[] | e |] t1]; try discriminate.
    unfold bind at 1 in H.
    destruct (get_codeowners_content E self name t1) as [[[content location] | e |] t2];
      try discriminate.
    unfold bind at 1 in H. rewrite time_sleep_tenth in H.
    destruct (IH _ _ _ _ H) as (rows & -> & Hlen & Hrows).
    exists (assemble url name content location :: rows).
    rewrite <- app_assoc. split; [reflexivity|]. split; [simpl; lia|].
    constructor; [| exact Hrows]. exists url, name, content, location. reflexivity.
Qed.

(** C5. A row without a CODEOWNERS file has no location and the owner
    [No CODEOWNERS file]; the owner is that literal whenever parsing
    yields nothing, the file being missing or having no qualifying rule,
    as with comments and blank lines only.  Each iteration of
    [analyze_repositories] adds the row assembled from what the locator
    returned, and every row of its result is such a row. *)
Theorem record_invariant :
  (forall url name content location,
     let r := assemble url name content location in
     (has_codeowner_file r = false ->
      codeowners_file_location r = None /\ primary_owner r = no_codeowners_file) /\
     (content = None ->
      has_codeowner_file r = false /\ primary_owner r = no_codeowners_file) /\
     (forall s, content = Some s -> parse_primary_codeowner s = None ->
                primary_owner r = no_codeowners_file) /\
     (forall s, content = Some s ->
                (forall x, In x (split_on newline (strip s)) -> skipped x = true) ->
                parse_primary_codeowner s = None /\
                primary_owner r = no_codeowners_file)) /\
  (forall i repo rest results t t1 t2 name url content location,
     Json.subscript repo (py "name") = Ok name ->
     Json.subscript repo (py "html_url") = Ok url ->
     (if (i mod 50 =? 0)%Z then check_rate_limit E else ret tt) t = (Returns tt, t1) ->
     get_codeowners_content E self name t1 = (Returns (content, location), t2) ->
     analyze_loop E self i (repo :: rest) results t
     = analyze_loop E self (i + 1) rest
         (results ++ [assemble url name content location]) (t2 ++ [Sleep (1 # 10)])) /\
  (forall repositories t records,
     fst (analyze_repositories E self repositories t) = Returns records ->
     length records = length repositories /\
     forall r, In r records ->
       (exists url name content location, r = assemble url name content location) /\
       (has_codeowner_file r = false ->
        codeowners_file_location r = None /\ primary_owner r = no_codeowners_file)).
Proof.
  split; [| split; [exact analyze_loop_step |]].
  - intros url name content location r. subst r.
    split; [exact (assemble_missing url name content location)|].
    split; [intros ->; split; reflexivity|].
    split.
    + intros s -> Hnone. exact (assemble_no_owner url name location s Hnone).
    + intros s -> Hskip.
      assert (Hnone : parse_primary_codeowner s = None).
      { apply parse_no_qualifying. intros x Hx.
        apply skipped_not_qualifying, Hskip, Hx. }
      split; [exact Hnone | exact (assemble_no_owner url name location s Hnone)].
  - intros repositories t records H.
    destruct (analyze_loop_records repositories 1 [] t records H)
      as (rows & -> & Hlen & Hrows).
    split; [exact Hlen|]. intros r Hr. cbn [app] in Hr.
    rewrite Forall_forall in Hrows.
    destruct (Hrows r Hr) as (url & name & content & location & ->).
    split; [exists url, name, content, location; reflexivity|].
    exact (assemble_missing url name content location).
Qed.

Lemma content_of_line (content : str) (pre : list str) (line : str) (post : list str) :
  split_on newline (strip content) = pre ++ line :: post ->
  strip line <> [] -> content <> [].
Proof.
  intros Hlines Hline ->. change (strip []) with (@nil N) in Hlines.
  cbn in Hlines. destruct pre as [|x [|y pre]]; try discriminate.
  injection Hlines as <-. apply Hline. reflexivity.
Qed.

(** C10. When the first qualifying line of the content is the single
    token [@], the parser returns the empty string, not [None].  The
    report turns every false owner, [None] or the empty string, into
    [No CODEOWNERS file]; so the row of such a file has
    [has_codeowner_file] true, keeps its location, and has the owner
    [No CODEOWNERS file].  Such a row does come out of
    [analyze_repositories]. *)
Theorem lone_at_sign_row :
  (forall content pre line post,
     first_qualifying content pre line post ->
     strip line = py "@" ->
     parse_primary_codeowner content = Some [] /\
     forall url name location,
       let r := assemble url name (Some content) location in
       has_codeowner_file r = true /\
       codeowners_file_location r = location /\
       primary_owner r = no_codeowners_file) /\
  (forall default, or_default None default = default /\
                   or_default (Some []) default = default) /\
  fst (analyze_repositories Examples.lone_at Examples.acme
         [Examples.repo_entry "svc" false false] [])
  = Returns [ {| repository_url := JStr (py "https://github.com/acme/svc");
                 repository_name := JStr (py "svc");
                 has_codeowner_file := true;
                 codeowners_file_location := Some (py ".github/CODEOWNERS");
                 primary_owner := no_codeowners_file |} ].
Proof.
  split; [| split; [intros default; split; reflexivity | reflexivity]].
  intros content pre line post (Hlines & Hpre & Hq) Hline.
  assert (Hns : negb (skipped line) = true).
  { unfold skipped. rewrite Hline. reflexivity. }
  assert (Hparse : parse_primary_codeowner content = Some []).
  { rewrite (parse_from_first_qualifying _ _ _ _ Hlines Hpre Hns).
    apply (parse_lines_team line post (py "@") Hq).
    unfold tokens. rewrite Hline. reflexivity. }
  split; [exact Hparse|]. intros url name location r. subst r.
  assert (Hne : content <> []).
  { apply (content_of_line content pre line post Hlines). rewrite Hline. discriminate. }
  unfold assemble. destruct content as [|c s]; [contradiction|].
  rewrite Hparse. repeat split.
Qed.

End Report.

Lemma record_invariant_witness :
  primary_owner
    (assemble (JStr (py "https://github.com/acme/svc")) (JStr (py "svc"))
       (Some (py "# only comments

# here
")) (Some (py "docs/CODEOWNERS")))
  = no_codeowners_file
  /\ fst (analyze_repositories Examples.comments_only Examples.acme
            [Examples.repo_entry "svc" false false] [])
     = Returns [ {| repository_url := JStr (py "https://github.com/acme/svc");
                    repository_name := JStr (py "svc");
                    has_codeowner_file := true;
                    codeowners_file_location := Some (py "docs/CODEOWNERS");
                    primary_owner := no_codeowners_file |} ].
Proof.
  destruct (record_invariant Examples.comments_only Examples.acme) as (Hrow & _ & _).
  destruct (Hrow (JStr (py "https://github.com/acme/svc")) (JStr (py "svc"))
              (Some (py "# only comments

# here
")) (Some (py "docs/CODEOWNERS"))) as (_ & _ & _ & Hcomments).
  split; [| reflexivity].
  apply (Hcomments _ eq_refl).
  intros x [<- | [<- | [<- | []]]]; reflexivity.
Defined.

Lemma lone_at_sign_row_witness :
  parse_primary_codeowner (py "# team

@
") = Some [].
Proof.
  destruct lone_at_sign_row as (H & _ & _).
  apply (H _ [py "# team"; py ""] (py "@") []); [| reflexivity].
  split; [reflexivity | split; [| reflexivity]].
  intros x [<- | [<- | []]]; reflexivity.
Defined.

(** ** When the guard is called *)

Section GuardCalls.

Variable E : env.
Variable self : analyzer.

Lemma guard_calls_app (t d : trace) : guard_calls (t ++ d) = (guard_calls t + guard_calls d)%nat.
Proof.
  unfold guard_calls. rewrite requests_app, filter_app, length_app. reflexivity.
Qed.

Lemma contents_request_not_rate_limit (name : json) (location : str) :
  is_rate_limit_request (contents_request E self name location) = false.
Proof. reflexivity. Qed.

Lemma listing_request_not_rate_limit (page : Z) :
  is_rate_limit_request (listing_request self page) = false.
Proof. reflexivity. Qed.

(** The guard comes back, having sent its one probe. *)
Lemma check_rate_limit_call (t : trace) :
  exists d,
    snd (check_rate_limit E t) = t ++ d /\ requests d = [rate_limit_request] /\
    guard_calls d = 1%nat /\ fst (check_rate_limit E t) <> OutOfFuel.
Proof.
  destruct (check_rate_limit_trace E t) as (d & Hd & Hreq).
  exists d. split; [exact Hd|]. split; [exact Hreq|]. split.
  - unfold guard_calls. rewrite Hreq. reflexivity.
  - apply check_rate_limit_answers.
Qed.

(** The locator never calls the guard. *)
Lemma probe_locations_calls (name : json) (locs : list str) (t : trace) :
  exists d, snd (probe_locations E self name locs t) = t ++ d /\ guard_calls d = 0%nat.
Proof.
  revert t. induction locs as [|location rest IH]; intros t.
  - exists []. rewrite app_nil_r. split; reflexivity.
  - assert (Hone : exists d, t ++ [Get (contents_request E self name location)] = t ++ d
                             /\ guard_calls d = 0%nat).
    { eexists. split; reflexivity. }
    assert (Hrest : exists d,
               snd (probe_locations E self name rest
                      (t ++ [Get (contents_request E self name location)])) = t ++ d
               /\ guard_calls d = 0%nat).
    { destruct (IH (t ++ [Get (contents_request E self name location)])) as (d & Hd & Hc).
      exists ([Get (contents_request E self name location)] ++ d).
      rewrite Hd, <- app_assoc. split; [reflexivity|].
      rewrite guard_calls_app, Hc. reflexivity. }
    cbn [probe_locations]. rewrite bind_session_get.
    destruct (server E t (contents_request E self name location)) as [resp | e]; run;
      [| exact Hone].
    destruct (status_code resp =? 200)%Z; [| exact Hrest].
    destruct (Json.get (body resp) (py "content") JNull) as [v | e]; run; [| exact Hone].
    destruct (Json.truthy v); [| exact Hrest].
    destruct (Json.subscript (body resp) (py "content")) as [v' | e]; run; [| exact Hone].
    destruct (decode_content E v') as [content | e]; run; exact Hone.
Qed.

(** Discovery sends its requests in pairs: the guard's probe, then the
    page; only a guard that raises leaves a probe without its page. *)
Lemma loop_requests (f : filters) (fuel : nat) :
  forall (repositories : list json) (page : Z) (t : trace)
         (o : outcome (list json)) (t' : trace),
    get_repositories_loop E self f fuel repositories page t = (o, t') ->
    exists d n,
      t' = t ++ d /\
      (requests d = discovery_requests self page n \/
       (requests d = discovery_requests self page n ++ [rate_limit_request] /\
        exists e, o = Raises e)).
Proof.
  induction fuel as [|fuel IH]; intros repositories page t o t' H.
  - cbn in H. injection H as <- <-. exists [], 0%nat. rewrite app_nil_r.
    split; [reflexivity | left; reflexivity].
  - cbn [get_repositories_loop] in H. unfold bind at 1 in H.
    destruct (check_rate_limit_call t) as (d1 & Hd1 & Hr1 & _ & Htotal).
    destruct (check_rate_limit E t) as [[[] | e |] t1]; cbn [fst snd] in Hd1, Htotal;
      subst t1; [| | contradiction].
    + assert (Hend : forall o0,
                (o0, (t ++ d1) ++ [Get (listing_request self page)]) = (o, t') ->
                exists d n,
                  t' = t ++ d /\
                  (requests d = discovery_requests self page n \/
                   (requests d = discovery_requests self page n ++ [rate_limit_request] /\
                    exists e, o = Raises e))).
      { intros o0 Ho. injection Ho as _ <-.
        exists (d1 ++ [Get (listing_request self page)]), 1%nat.
        rewrite <- app_assoc. split; [reflexivity|]. left.
        rewrite requests_app, Hr1. reflexivity. }
      rewrite bind_session_get in H.
      destruct (server E (t ++ d1) (listing_request self page)) as [resp | e]; run_in H;
        [| exact (Hend _ H)].
      destruct (negb (status_code resp =? 200)%Z); [exact (Hend _ H)|].
      destruct (negb (Json.truthy (body resp))); [exact (Hend _ H)|].
      destruct (Json.iterate (body resp)) as [items | e]; run_in H; [| exact (Hend _ H)].
      destruct (filter_repos f items []) as [kept_repos | e]; run_in H;
        [| exact (Hend _ H)].
      destruct (Json.len (body resp)) as [n | e]; run_in H; [| exact (Hend _ H)].
      destruct (n <? per_page)%Z; [exact (Hend _ H)|].
      destruct (IH _ _ _ _ _ H) as (d' & n' & -> & Hreq').
      exists (d1 ++ [Get (listing_request self page)] ++ d'), (S n').
      split; [rewrite <- !app_assoc; reflexivity|].
      rewrite !requests_app, Hr1.
      change (discovery_requests self page (S n'))
        with ([rate_limit_request; listing_request self page]
                ++ discovery_requests self (page + 1) n').
      destruct Hreq' as [Hreq' | [Hreq' He]]; [left | right; split; [| exact He]];
        rewrite Hreq'; reflexivity.
    + injection H as <- <-. exists d1, 0%nat. split; [reflexivity|].
      right. split; [exact Hr1 | exists e; reflexivity].
Qed.

(** The guard calls of [count] discovery iterations: one each. *)
Lemma discovery_requests_calls (page : Z) (count : nat) :
  length (filter is_rate_limit_request (discovery_requests self page count)) = count.
Proof.
  unfold discovery_requests. revert page.
  induction count as [|count IH]; intros page; [reflexivity|].
  cbn [page_numbers flat_map]. rewrite filter_app, length_app, IH. reflexivity.
Qed.

(** The per-repository loop calls the guard at the indices that are
    multiples of 50 and nowhere else. *)
Lemma analyze_loop_calls (repositories : list json) :
  forall (i : Z) (results : list analysis_record) (t : trace)
         (records : list analysis_record) (t' : trace),
    analyze_loop E self i repositories results t = (Returns records, t') ->
    exists d,
      t' = t ++ d /\
      guard_calls d = length (guard_indices i (length repositories)).
Proof.
  induction repositories as [|repo rest IH]; intros i results t records t' H.
  - cbn in H. injection H as _ <-. exists []. rewrite app_nil_r. split; reflexivity.
  - cbn [analyze_loop] in H.
    destruct (Json.subscript repo (py "name")) as [name | e]; run_in H;
      [| discriminate].
    destruct (Json.subscript repo (py "html_url")) as [url | e]; run_in H;
      [| discriminate].
    unfold bind at 1 in H.
    assert (Hguard : exists d1,
              snd ((if (i mod 50 =? 0)%Z then check_rate_limit E else ret tt) t) = t ++ d1
              /\ guard_calls d1 = (if (i mod 50 =? 0)%Z then 1 else 0)%nat).
    { destruct (i mod 50 =? 0)%Z.
      - destruct (check_rate_limit_call t) as (d1 & Hd1 & _ & Hc & _).
        exists d1. split; assumption.
      - exists []. rewrite app_nil_r. split; reflexivity. }
    destruct Hguard as (d1 & Hd1 & Hc1).
    destruct ((if (i mod 50 =? 0)%Z then check_rate_limit E else ret tt) t)
      as [[[] | e |] t1]; try discriminate.
    cbn [snd] in Hd1. subst t1.
    unfold bind at 1 in H. unfold get_codeowners_content in H.
    destruct (probe_locations_calls name locations (t ++ d1)) as (d2 & Hd2 & Hc2).
    destruct (probe_locations E self name locations (t ++ d1))
      as [[[content location] | e |] t2]; try discriminate.
    cbn [snd] in Hd2. subst t2.
    unfold bind at 1 in H. rewrite time_sleep_tenth in H.
    destruct (IH _ _ _ _ _ H) as (d3 & -> & Hc3).
    exists (d1 ++ d2 ++ [Sleep (1 # 10)] ++ d3).
    split; [rewrite <- !app_assoc; reflexivity|].
    rewrite !guard_calls_app, Hc1, Hc2, Hc3.
    unfold guard_indices. cbn [length page_numbers filter].
    destruct (i mod 50 =? 0)%Z; reflexivity.
Qed.

(** Where the guard is called: a completed run leaves, repository by
    repository, the guard's segment exactly when the number of the
    repository is a multiple of 50, then the locator's requests for that
    repository, then the pacing sleep. *)
Lemma analyze_loop_steps (repositories : list json) :
  forall (i : Z) (results : list analysis_record) (t : trace)
         (records : list analysis_record) (t' : trace),
    analyze_loop E self i repositories results t = (Returns records, t') ->
    exists d, t' = t ++ d /\ repository_steps E self i repositories d.
Proof.
  induction repositories as [|repo rest IH]; intros i results t records t' H.
  - cbn in H. injection H as _ <-. exists []. rewrite app_nil_r.
    split; [reflexivity | constructor].
  - cbn [analyze_loop] in H.
    destruct (Json.subscript repo (py "name")) as [name | e] eqn:Hname; run_in H;
      [| discriminate].
    destruct (Json.subscript repo (py "html_url")) as [url | e]; run_in H;
      [| discriminate].
    unfold bind at 1 in H.
    assert (Hguard : forall o t1,
              (if (i mod 50 =? 0)%Z then check_rate_limit E else ret tt) t
              = (Returns o, t1) ->
              exists g, t1 = t ++ g /\
                        if (i mod 50 =? 0)%Z then guard_segment g else g = []).
    { intros o t1. destruct (i mod 50 =? 0)%Z.
      - intros Hg.
        destruct (check_rate_limit_outcomes E t _ _ Hg) as [-> | (q & Hq & _ & ->)].
        + exists [Get rate_limit_request]. split; [reflexivity | left; reflexivity].
        + exists [Get rate_limit_request; Sleep q]. unfold probed.
          rewrite <- app_assoc. split; [reflexivity|].
          right. exists q. split; [exact Hq | reflexivity].
      - intros Hg. injection Hg as _ <-. exists []. rewrite app_nil_r.
        split; reflexivity. }
    destruct ((if (i mod 50 =? 0)%Z then check_rate_limit E else ret tt) t)
      as [[[] | e |] t1] eqn:Hg; try discriminate.
    destruct (Hguard _ _ eq_refl) as (g & -> & Hsegment).
    unfold bind at 1 in H. unfold get_codeowners_content in H.
    destruct (probe_locations E self name locations (t ++ g))
      as [[found | e |] t2] eqn:Hloc; try discriminate.
    destruct (probe_locations_prefix E self name locations _ _ _ Hloc)
      as (k & Hk & Hk1 & -> & _).
    unfold bind at 1 in H. rewrite time_sleep_tenth in H.
    destruct (IH _ _ _ _ _ H) as (d & -> & Hsteps).
    exists (g ++ map Get (firstn k (candidate_requests E self name))
              ++ [Sleep (1 # 10)] ++ d).
    split; [rewrite <- !app_assoc; reflexivity|].
    apply (steps_repository E self i repo name rest g k d Hname Hsegment);
      [| exact Hsteps].
    split; [apply Hk1; discriminate | exact Hk].
Qed.

Lemma page_numbers_snoc (first : Z) (count : nat) :
  page_numbers first (S count)
  = page_numbers first count ++ [(first + Z.of_nat count)%Z].
Proof.
  revert first. induction count as [|count IH]; intros first.
  - cbn. rewrite Z.add_0_r. reflexivity.
  - change (page_numbers first (S (S count)))
      with (first :: page_numbers (first + 1) (S count)).
    rewrite IH. cbn [page_numbers app].
    replace (first + 1 + Z.of_nat count)%Z with (first + Z.of_nat (S count))%Z by lia.
    reflexivity.
Qed.

(** Among the first [count] indices there are [count / 50] multiples of
    50. *)
Lemma guard_indices_count (count : nat) :
  length (guard_indices 1 count) = (count / 50)%nat.
Proof.
  apply Nat2Z.inj. rewrite Nat2Z.inj_div.
  induction count as [|count IH]; [reflexivity|].
  unfold guard_indices in *. rewrite page_numbers_snoc, filter_app, length_app.
  rewrite Nat2Z.inj_add, IH. cbn [filter].
  change (Z.of_nat 50) with 50%Z.
  destruct (Z.eqb_spec ((1 + Z.of_nat count) mod 50) 0) as [Hm | Hm]; cbn [length];
    rewrite Nat2Z.inj_succ;
    pose proof (Z.div_mod (Z.of_nat count) 50 ltac:(lia));
    pose proof (Z.mod_pos_bound (Z.of_nat count) 50 ltac:(lia));
    pose proof (Z.div_mod (Z.succ (Z.of_nat count)) 50 ltac:(lia));
    pose proof (Z.mod_pos_bound (Z.succ (Z.of_nat count)) 50 ltac:(lia));
    replace (1 + Z.of_nat count)%Z with (Z.succ (Z.of_nat count)) in Hm by lia;
    lia.
Qed.

(** The first event that a repository leaves: the guard's probe when its
    number is a multiple of 50, the request for its first candidate
    otherwise. *)
Lemma repository_steps_first (i : Z) (repo : json) (rest : list json) (d : trace) :
  repository_steps E self i (repo :: rest) d ->
  exists name d',
    Json.subscript repo (py "name") = Ok name /\
    d = Get (if (i mod 50 =? 0)%Z then rate_limit_request
             else contents_request E self name (py ".github/CODEOWNERS")) :: d'.
Proof.
  intros H. inversion H as [| i0 repo0 name rest0 g k d0 Hname Hg Hk Hrest]; subst.
  exists name. destruct (i mod 50 =? 0)%Z.
  - destruct Hg as [-> | (q & _ & ->)]; eexists; (split; [exact Hname | reflexivity]).
  - subst g. destruct k as [|k]; [lia|].
    eexists. split; [exact Hname | reflexivity].
Qed.

(** C8. The requests of discovery come in pairs, the guard's probe and
    then the page it precedes, for the pages 1, 2, ... in turn: one call
    of the guard before each page fetch (a probe is left without its
    page only when the guard itself raises).  In the per-repository loop
    the guard is called at the repositories whose index is a multiple of
    50 and at no other: [n / 50] calls for [n] repositories, and the
    history of a completed run is, repository by repository, the guard's
    probe (with its wait, if any) when the number of the repository is a
    multiple of 50 and nothing of the guard otherwise, then the requests
    for the CODEOWNERS candidates of that repository, then the pacing
    sleep.  So the probe is the first event of the repositories 50, 100,
    150, ... and the first event of every other repository is the
    request for its first candidate. *)
Theorem guard_call_schedule :
  (forall f fuel t o t',
     get_repositories E self fuel f t = (o, t') ->
     exists d n,
       t' = t ++ d /\
       (requests d = discovery_requests self 1 n \/
        (requests d = discovery_requests self 1 n ++ [rate_limit_request] /\
         exists e, o = Raises e)) /\
       (forall repositories, o = Returns repositories ->
          requests d = discovery_requests self 1 n /\ guard_calls d = n)) /\
  (forall i repositories results t records t',
     analyze_loop E self i repositories results t = (Returns records, t') ->
     exists d,
       t' = t ++ d /\
       guard_calls d = length (guard_indices i (length repositories))) /\
  (forall repositories t records t',
     analyze_repositories E self repositories t = (Returns records, t') ->
     exists d,
       t' = t ++ d /\ guard_calls d = (length repositories / 50)%nat) /\
  guard_indices 1 160 = [50; 100; 150]%Z /\
  (forall repositories t records t',
     analyze_repositories E self repositories t = (Returns records, t') ->
     exists d,
       t' = t ++ d /\ repository_steps E self 1 repositories d) /\
  (forall i repo rest d,
     repository_steps E self i (repo :: rest) d ->
     exists name d',
       Json.subscript repo (py "name") = Ok name /\
       d = Get (if (i mod 50 =? 0)%Z then rate_limit_request
                else contents_request E self name (py ".github/CODEOWNERS")) :: d' /\
       is_rate_limit_request
         (contents_request E self name (py ".github/CODEOWNERS")) = false).
Proof.
  split; [| split; [| split; [| split; [reflexivity | split]]]].
  - intros f fuel t o t' H.
    destruct (loop_requests f fuel [] 1 t o t' H) as (d & n & Hd & Hreq).
    exists d, n. split; [exact Hd|]. split; [exact Hreq|].
    intros repositories ->.
    destruct Hreq as [Hreq | [_ [e He]]]; [| discriminate].
    split; [exact Hreq|]. unfold guard_calls. rewrite Hreq.
    apply discovery_requests_calls.
  - intros i repositories. exact (analyze_loop_calls repositories i).
  - intros repositories t records t' H.
    destruct (analyze_loop_calls repositories 1 [] t records t' H) as (d & Hd & Hc).
    exists d. split; [exact Hd|]. rewrite Hc. apply guard_indices_count.
  - intros repositories t records t' H.
    exact (analyze_loop_steps repositories 1 [] t records t' H).
  - intros i repo rest d H.
    destruct (repository_steps_first i repo rest d H) as (name & d' & Hname & Hd).
    exists name, d'. split; [exact Hname|]. split; [exact Hd | reflexivity].
Qed.

End GuardCalls.

Lemma guard_call_schedule_witness :
  exists d,
    snd (analyze_repositories Examples.root_only Examples.acme
           (repeat (Examples.repo_entry "svc" false false) 50) []) = [] ++ d
    /\ guard_calls d = 1%nat
    /\ repository_steps Examples.root_only Examples.acme 1
         (repeat (Examples.repo_entry "svc" false false) 50) d
    /\ nth_error (requests d) 98 = Some rate_limit_request.
Proof.
  destruct (guard_call_schedule Examples.root_only Examples.acme)
    as (_ & _ & Hcount & _ & Hsteps & _).
  pose (run := analyze_repositories Examples.root_only Examples.acme
                 (repeat (Examples.repo_entry "svc" false false) 50) []).
  assert (Hrun : run = (Returns (match fst run with Returns r => r | _ => [] end), snd run))
    by (vm_compute; reflexivity).
  destruct (Hcount _ _ _ _ Hrun) as (d & Hd & Hc).
  destruct (Hsteps _ _ _ _ Hrun) as (d' & Hd' & Hs).
  assert (Heq : d' = d) by (rewrite Hd' in Hd; exact (app_inv_head [] _ _ Hd)).
  subst d'. exists d. split; [exact Hd|]. split; [exact Hc|]. split; [exact Hs|].
  cbn [app] in Hd. rewrite <- Hd. vm_compute. reflexivity.
Defined.

(** * Further properties *)

(** ** More on the parser *)

Section ParserMore.

Lemma skipn_no_whitespace (n : nat) (s : str) :
  no_whitespace s -> no_whitespace (skipn n s).
Proof.
  unfold no_whitespace. revert s. induction n as [|n IH]; intros s H; [exact H|].
  destruct s as [|c s]; [exact H|]. cbn [skipn]. apply IH.
  inversion H; assumption.
Qed.

(** The tokens of [split] hold no whitespace. *)
Lemma split_from_no_whitespace (s cur : str) :
  no_whitespace cur -> Forall no_whitespace (split_from cur s).
Proof.
  revert cur. induction s as [|c s IH]; intros cur Hcur; cbn [split_from].
  - destruct cur; constructor; [exact Hcur | constructor].
  - destruct (isspace c) eqn:Hc.
    + destruct cur as [|c0 cur]; [apply IH; constructor|].
      constructor; [exact Hcur | apply IH; constructor].
    + apply IH. unfold no_whitespace in *. apply Forall_app. split; [exact Hcur|].
      constructor; [exact Hc | constructor].
Qed.

Lemma strip_at_no_whitespace (t : str) : no_whitespace t -> no_whitespace (strip_at t).
Proof.
  intros H. unfold strip_at. destruct (startswith (py "@") t); [| exact H].
  apply skipn_no_whitespace. exact H.
Qed.

Lemma parse_lines_no_whitespace (lines : list str) (owner : str) :
  parse_lines lines = Some owner -> no_whitespace owner.
Proof.
  induction lines as [|x rest IH]; [discriminate|].
  rewrite parse_lines_cons.
  pose proof (split_from_no_whitespace (strip x) [] ltac:(constructor)) as Htok.
  fold (split (strip x)) in Htok.
  destruct (is_empty (strip x) || startswith (py "#") (strip x)); [exact IH|].
  destruct (split (strip x)) as [|t1 [|t2 more]] eqn:Hparts.
  - rewrite andb_false_r. exact IH.
  - rewrite (split_single_strip _ _ Hparts).
    destruct (startswith (py "@") t1); cbn [andb length Nat.eqb Nat.leb]; [| exact IH].
    intros H. injection H as <-. apply (skipn_no_whitespace 1 t1).
    inversion Htok; assumption.
  - rewrite andb_false_r. cbn [length Nat.leb skipn nth].
    intros H. injection H as <-. apply (strip_at_no_whitespace t2).
    inversion Htok as [|? ? _ Htl]. inversion Htl; assumption.
Qed.

(** X1. The owner that the parser returns never holds a whitespace
    character (no blank, tab, carriage return or line break). *)
Theorem parsed_owner_has_no_whitespace (content owner : str) :
  parse_primary_codeowner content = Some owner -> no_whitespace owner.
Proof.
  unfold parse_primary_codeowner. destruct (is_empty content); [discriminate|].
  apply parse_lines_no_whitespace.
Qed.

Lemma qualifying_answers (x : str) (rest : list str) :
  qualifying x = true -> exists owner, parse_lines (x :: rest) = Some owner.
Proof.
  intros Hq. destruct (tokens x) as [|t1 [|t2 more]] eqn:Ht.
  - unfold qualifying in Hq. rewrite Ht, andb_false_r in Hq. discriminate.
  - eexists. exact (parse_lines_team x rest t1 Hq Ht).
  - eexists. exact (parse_lines_pattern x rest t1 t2 more Hq Ht).
Qed.

Lemma parse_lines_none (lines : list str) :
  parse_lines lines = None -> forall x, In x lines -> qualifying x = false.
Proof.
  induction lines as [|y rest IH]; intros H x Hx; [contradiction|].
  destruct (qualifying y) eqn:Hq.
  - destruct (qualifying_answers y rest Hq) as [owner Ho]. congruence.
  - rewrite (parse_lines_skip y rest Hq) in H.
    destruct Hx as [<- | Hx]; [exact Hq | exact (IH H x Hx)].
Qed.

(** X2. The parser returns [None] exactly when no line of the trimmed
    content is a qualifying line. *)
Theorem parse_none_iff_no_qualifying_line (content : str) :
  parse_primary_codeowner content = None <->
  (forall x, In x (split_on newline (strip content)) -> qualifying x = false).
Proof.
  split; [| apply parse_no_qualifying].
  unfold parse_primary_codeowner. destruct content as [|c content].
  - intros _ x [<- | []]. reflexivity.
  - cbn [is_empty]. apply parse_lines_none.
Qed.

Lemma lstrip_whitespace (w : str) : all_whitespace w -> lstrip w = [].
Proof.
  induction 1 as [|c w Hc _ IH]; [reflexivity|]. cbn [lstrip]. rewrite Hc. exact IH.
Qed.

Lemma lstrip_app_whitespace_l (w s : str) :
  all_whitespace w -> lstrip (w ++ s) = lstrip s.
Proof.
  induction 1 as [|c w Hc _ IH]; [reflexivity|].
  cbn [app lstrip]. rewrite Hc. exact IH.
Qed.

Lemma lstrip_app_whitespace_r (s w : str) :
  all_whitespace w ->
  lstrip (s ++ w) = match lstrip s with [] => [] | _ => lstrip s ++ w end.
Proof.
  intros Hw. induction s as [|c s IH].
  - cbn [app lstrip]. apply lstrip_whitespace. exact Hw.
  - cbn [app lstrip]. destruct (isspace c); [exact IH | reflexivity].
Qed.

Lemma rstrip_app_whitespace (s w : str) :
  all_whitespace w -> rstrip (s ++ w) = rstrip s.
Proof.
  intros Hw. unfold rstrip. rewrite rev_app_distr, lstrip_app_whitespace_l; [reflexivity|].
  unfold all_whitespace in *. apply Forall_rev. exact Hw.
Qed.

(** Whitespace around a string does not survive trimming. *)
Lemma strip_surrounded (w1 s w2 : str) :
  all_whitespace w1 -> all_whitespace w2 -> strip (w1 ++ s ++ w2) = strip s.
Proof.
  intros H1 H2. unfold strip.
  rewrite (lstrip_app_whitespace_l w1 _ H1), (lstrip_app_whitespace_r s w2 H2).
  destruct (lstrip s) as [|c r]; [reflexivity|].
  apply rstrip_app_whitespace. exact H2.
Qed.

(** X3. Whitespace before and after the content, blank lines included,
    never changes what the parser returns. *)
Theorem parse_ignores_surrounding_whitespace (w1 content w2 : str) :
  all_whitespace w1 -> all_whitespace w2 ->
  parse_primary_codeowner (w1 ++ content ++ w2) = parse_primary_codeowner content.
Proof.
  intros H1 H2. unfold parse_primary_codeowner.
  rewrite (strip_surrounded w1 content w2 H1 H2).
  destruct content as [|c content].
  - cbn [is_empty]. destruct (is_empty (w1 ++ [] ++ w2)); reflexivity.
  - cbn [is_empty]. destruct w1; reflexivity.
Qed.

End ParserMore.

Lemma parsed_owner_has_no_whitespace_witness : no_whitespace (py "platform-team").
Proof.
  apply (parsed_owner_has_no_whitespace (py "# team rule
	@platform-team  
")).
  reflexivity.
Defined.

Lemma parse_ignores_surrounding_whitespace_witness :
  parse_primary_codeowner (py "

" ++ py "/docs/ jane" ++ py " 
")
  = Some (py "jane").
Proof.
  rewrite parse_ignores_surrounding_whitespace.
  - reflexivity.
  - repeat constructor.
  - repeat constructor.
Defined.

(** ** More on the guard *)

Section GuardMore.

Variable E : env.

(** X4. Whatever the quota endpoint answers, one call of the guard sends
    exactly one request, the quota probe, and then either does nothing
    more or sleeps once, for a positive duration, and returns; it never
    sleeps when it raises.  The duration need not be a whole number of
    seconds: with 9.5 requests remaining and a reset at 1700000000.5,
    at 1699999400 the guard sleeps 610.5 seconds. *)
Theorem check_rate_limit_footprint (t : trace) :
  (snd (check_rate_limit E t) = t ++ [Get rate_limit_request] \/
   exists q, (0 < q)%Q /\
             snd (check_rate_limit E t) = t ++ [Get rate_limit_request; Sleep q] /\
             fst (check_rate_limit E t) = Returns tt) /\
  exists q, check_rate_limit Examples.fractional_quota []
            = (Returns tt, [Get rate_limit_request; Sleep q]) /\
            (q == 1221 # 2)%Q.
Proof.
  split.
  - destruct (check_rate_limit E t) as [o t'] eqn:H.
    destruct (check_rate_limit_outcomes E t o t' H) as [-> | (q & Hq & -> & ->)].
    + left. reflexivity.
    + right. exists q. unfold probed. rewrite <- app_assoc.
      split; [exact Hq | split; reflexivity].
  - eexists. split; [vm_compute; reflexivity | reflexivity].
Qed.






End GuardMore.


(** ** More on discovery *)

Section DiscoveryMore.

Variable E : env.
Variable self : analyzer.
Variable f : filters.

(** The filtering loop returns only over a page of objects. *)
Lemma filter_repos_inv (data filtered_repos out : list json) :
  filter_repos f data filtered_repos = Ok out ->
  Forall Json.is_object data /\ out = filtered_repos ++ filter (kept f) data.
Proof.
  revert filtered_repos. induction data as [|repo rest IH]; intros acc H.
  - cbn in H. injection H as <-. rewrite app_nil_r. split; [constructor | reflexivity].
  - destruct repo as [| | | | | |fields]; try discriminate.
    rewrite filter_repos_object in H. destruct (IH _ H) as [Hobj ->].
    split; [constructor; [exact I | exact Hobj]|].
    cbn [filter]. destruct (kept f (JObj fields)); [rewrite <- app_assoc|]; reflexivity.
Qed.

Lemma filter_repos_not_object (data filtered_repos : list json) :
  Exists (fun v => ~ Json.is_object v) data ->
  filter_repos f data filtered_repos = Raise AttributeError.
Proof.
  intros H. revert filtered_repos. induction H as [repo rest Hrepo | repo rest _ IH];
    intros acc.
  - destruct repo; try reflexivity. exfalso. apply Hrepo. exact I.
  - destruct repo as [| | | | | |fields]; try reflexivity.
    rewrite filter_repos_object. apply IH.
Qed.

Lemma loop_returns_kept (fuel : nat) :
  forall (repositories : list json) (page : Z) (t : trace)
         (result : list json) (t' : trace),
    get_repositories_loop E self f fuel repositories page t = (Returns result, t') ->
    exists more,
      result = repositories ++ more /\
      Forall (fun repo => Json.is_object repo /\ kept f repo = true) more.
Proof.
  induction fuel as [|fuel IH]; intros repositories page t result t' H; [discriminate|].
  assert (Hend : forall t0, ret repositories t0 = (Returns result, t') ->
            exists more, result = repositories ++ more /\
              Forall (fun repo => Json.is_object repo /\ kept f repo = true) more).
  { intros t0 H0. injection H0 as <- _. exists []. rewrite app_nil_r.
    split; [reflexivity | constructor]. }
  cbn [get_repositories_loop] in H. unfold bind at 1 in H.
  destruct (check_rate_limit E t) as [[[] | e |] t1]; try discriminate.
  rewrite bind_session_get in H.
  destruct (server E t1 (listing_request self page)) as [resp | e]; run_in H;
    [| discriminate].
  destruct (negb (status_code resp =? 200)%Z); [exact (Hend _ H)|].
  destruct (negb (Json.truthy (body resp))); [exact (Hend _ H)|].
  destruct (Json.iterate (body resp)) as [items | e]; run_in H; [| discriminate].
  destruct (filter_repos f items []) as [kept_repos | e] eqn:Hf; run_in H;
    [| discriminate].
  destruct (filter_repos_inv _ _ _ Hf) as [Hobj ->]. cbn [app] in H.
  assert (Hkept : Forall (fun repo => Json.is_object repo /\ kept f repo = true)
                    (filter (kept f) items)).
  { apply Forall_forall. intros x Hx. apply filter_In in Hx. destruct Hx as [Hx Hk].
    rewrite Forall_forall in Hobj. split; [exact (Hobj x Hx) | exact Hk]. }
  destruct (Json.len (body resp)) as [n | e]; run_in H; [| discriminate].
  destruct (n <? per_page)%Z.
  - injection H as <- _. exists (filter (kept f) items). split; [reflexivity | exact Hkept].
  - destruct (IH _ _ _ _ _ H) as (more & -> & Hmore).
    exists (filter (kept f) items ++ more). rewrite app_assoc.
    split; [reflexivity | apply Forall_app; split; assumption].
Qed.

(** X6. Whatever the server answers, every entry that discovery returns is
    an object that satisfies the filtering rule. *)
Theorem get_repositories_returns_kept (fuel : nat) (t : trace)
    (repositories : list json) (t' : trace) :
  get_repositories E self fuel f t = (Returns repositories, t') ->
  Forall (fun repo => Json.is_object repo /\ kept f repo = true) repositories.
Proof.
  intros H. destruct (loop_returns_kept fuel [] 1 t repositories t' H) as (more & -> & Hm).
  exact Hm.
Qed.

(** X7. Without [include_public] and without [include_private] discovery
    never returns an entry, [include_archived] or not: an archived
    repository is still public or private. *)
Theorem get_repositories_needs_visibility (fuel : nat) (t : trace)
    (repositories : list json) (t' : trace) :
  include_public f = false -> include_private f = false ->
  get_repositories E self fuel f t = (Returns repositories, t') ->
  repositories = [].
Proof.
  intros Hpub Hpriv H.
  destruct (loop_returns_kept fuel [] 1 t repositories t' H) as (more & -> & Hm).
  destruct more as [|repo more]; [reflexivity|]. exfalso.
  inversion Hm as [|? ? [_ Hk] _]. unfold kept in Hk. rewrite Hpub, Hpriv in Hk.
  destruct (flag repo (py "private")), (flag repo (py "archived")),
    (include_archived f); discriminate.
Qed.

(** X8. A 200 page that is not a list of objects makes discovery raise,
    and what it had accumulated is not returned: [AttributeError] for a
    list with an entry that is not an object, for a non-empty object and
    for a non-empty string; [TypeError] for a number other than 0 and for
    [true]. *)
Theorem malformed_page_raises (fuel : nat) (repositories : list json) (page : Z)
    (t t1 : trace) (data : json) :
  check_rate_limit E t = (Returns tt, t1) ->
  server E t1 (listing_request self page) = Ok {| status_code := 200; body := data |} ->
  let final := t1 ++ [Get (listing_request self page)] in
  (forall items, data = JArr items -> Exists (fun v => ~ Json.is_object v) items ->
     get_repositories_loop E self f (S fuel) repositories page t
     = (Raises AttributeError, final)) /\
  (forall fields, data = JObj fields -> fields <> [] ->
     get_repositories_loop E self f (S fuel) repositories page t
     = (Raises AttributeError, final)) /\
  (forall s, data = JStr s -> s <> [] ->
     get_repositories_loop E self f (S fuel) repositories page t
     = (Raises AttributeError, final)) /\
  (forall n, data = JNum n -> n <> 0%Z ->
     get_repositories_loop E self f (S fuel) repositories page t
     = (Raises TypeError, final)) /\
  (data = JBool true ->
     get_repositories_loop E self f (S fuel) repositories page t
     = (Raises TypeError, final)).
Proof.
  intros Hg Hs final. rewrite (loop_answered E self f fuel repositories page t t1 _ Hg Hs).
  cbn [status_code body Z.eqb Pos.eqb negb]. fold final.
  split; [| split; [| split; [| split]]].
  - intros items -> Hex. destruct items as [|x items]; [inversion Hex|].
    cbn [Json.truthy negb Json.iterate]. run.
    rewrite (filter_repos_not_object _ [] Hex). reflexivity.
  - intros fields -> Hne. destruct fields as [|[k v] fields]; [contradiction|]. reflexivity.
  - intros s -> Hne. destruct s as [|c s]; [contradiction|]. reflexivity.
  - intros n -> Hne. cbn [Json.truthy]. destruct (Z.eqb_spec n 0); [contradiction|].
    reflexivity.
  - intros ->. reflexivity.
Qed.

Lemma loop_guard_raises (fuel : nat) (repositories : list json) (page : Z)
    (t t1 : trace) (e : exn) :
  check_rate_limit E t = (Raises e, t1) ->
  get_repositories_loop E self f (S fuel) repositories page t = (Raises e, t1).
Proof.
  intros Hg. cbn [get_repositories_loop]. unfold bind at 1. rewrite Hg. reflexivity.
Qed.

Lemma loop_unanswered (fuel : nat) (repositories : list json) (page : Z)
    (t t1 : trace) (e : exn) :
  check_rate_limit E t = (Returns tt, t1) ->
  server E t1 (listing_request self page) = Raise e ->
  get_repositories_loop E self f (S fuel) repositories page t
  = (Raises e, t1 ++ [Get (listing_request self page)]).
Proof.
  intros Hg Hs. cbn [get_repositories_loop].
  rewrite (bind_returns _ _ _ _ _ Hg), bind_session_get, Hs. reflexivity.
Qed.

(** X9. After any number of full pages, a guard that raises or a page
    request that gets no answer makes discovery raise that exception: the
    entries of the pages already fetched are not returned (unlike with a
    status other than 200). *)
Theorem discovery_exception_loses_pages (t0 t' : trace) (pages : list (list json)) :
  full_pages E self t0 1 pages t' ->
  (forall e t1,
     check_rate_limit E t' = (Raises e, t1) ->
     forall fuel, (length pages < fuel)%nat ->
       get_repositories E self fuel f t0 = (Raises e, t1)) /\
  (forall e t1,
     check_rate_limit E t' = (Returns tt, t1) ->
     server E t1 (listing_request self (1 + Z.of_nat (length pages))) = Raise e ->
     forall fuel, (length pages < fuel)%nat ->
       get_repositories E self fuel f t0
       = (Raises e, t1 ++ [Get (listing_request self (1 + Z.of_nat (length pages)))])).
Proof.
  intros Hfull. split.
  - intros e t1 Hg fuel Hfuel. unfold get_repositories.
    replace fuel with (length pages + S (fuel - S (length pages)))%nat by lia.
    rewrite (loop_full_pages E self f _ _ _ _ Hfull).
    exact (loop_guard_raises _ _ _ _ _ _ Hg).
  - intros e t1 Hg Hs fuel Hfuel. unfold get_repositories.
    replace fuel with (length pages + S (fuel - S (length pages)))%nat by lia.
    rewrite (loop_full_pages E self f _ _ _ _ Hfull).
    exact (loop_unanswered _ _ _ _ _ _ Hg Hs).
Qed.

End DiscoveryMore.

Lemma get_repositories_returns_kept_witness :
  Forall (fun repo => Json.is_object repo /\ kept Examples.public_only repo = true)
    (Examples.full_page ++ [Examples.repo_entry "api" false false]).
Proof.
  apply (get_repositories_returns_kept Examples.two_pages Examples.acme
           Examples.public_only 2 [] _
           [ Get rate_limit_request; Get (listing_request Examples.acme 1);
             Get rate_limit_request; Get (listing_request Examples.acme 2) ]).
  vm_compute. reflexivity.
Defined.

Lemma get_repositories_needs_visibility_witness :
  fst (get_repositories Examples.two_pages Examples.acme 2 Examples.archived_only [])
  = Returns [].
Proof.
  destruct (get_repositories Examples.two_pages Examples.acme 2 Examples.archived_only [])
    as [o t'] eqn:H.
  assert (Hret : exists r, o = Returns r).
  { revert H. vm_compute. intros H. injection H as <- _. eexists. reflexivity. }
  destruct Hret as [r ->].
  rewrite (get_repositories_needs_visibility Examples.two_pages Examples.acme
             Examples.archived_only 2 [] r t' eq_refl eq_refl H).
  reflexivity.
Defined.

Lemma malformed_page_raises_witness :
  get_repositories Examples.broken_page Examples.acme 1 Examples.all_repos []
  = (Raises AttributeError,
     [Get rate_limit_request; Get (listing_request Examples.acme 1)]).
Proof.
  destruct (malformed_page_raises Examples.broken_page Examples.acme Examples.all_repos
              0 [] 1 [] [Get rate_limit_request]
              (JArr [Examples.repo_entry "api" false false; JNull])
              eq_refl eq_refl) as (H & _).
  apply (H _ eq_refl). right. left. intros Hobj. exact Hobj.
Defined.

Lemma discovery_exception_loses_pages_witness :
  get_repositories Examples.then_offline Examples.acme 2 Examples.all_repos []
  = (Raises ConnectionError,
     [ Get rate_limit_request; Get (listing_request Examples.acme 1);
       Get rate_limit_request; Get (listing_request Examples.acme 2) ]).
Proof.
  destruct (discovery_exception_loses_pages Examples.then_offline Examples.acme
              Examples.all_repos [] _ [Examples.full_page]
              (full_page_served Examples.then_offline eq_refl eq_refl)) as [_ H].
  apply (H ConnectionError
           [ Get rate_limit_request; Get (listing_request Examples.acme 1);
             Get rate_limit_request ]); [reflexivity | reflexivity | simpl; lia].
Defined.

(** ** More on the locator *)

Section LocatorMore.

Variable E : env.
Variable self : analyzer.
Variable repo_name : json.

Local Abbreviation probe := (contents_request E self repo_name).

(** X11. Whatever the server answers and however the locator ends, it has
    sent between one and three requests and nothing else: the requests for
    the candidate paths, in their order, up to some candidate.  When it
    returns a location, that is the path requested last; when it returns
    none, all three were requested. *)
Theorem locator_requests_are_a_prefix (t : trace)
    (o : outcome (option str * option str)) (t' : trace) :
  get_codeowners_content E self repo_name t = (o, t') ->
  exists k,
    (1 <= k <= 3)%nat /\
    t' = t ++ map Get (firstn k (candidate_requests E self repo_name)) /\
    (forall c l, o = Returns (c, Some l) -> nth_error locations (k - 1) = Some l) /\
    (forall c, o = Returns (c, None) -> k = 3%nat).
Proof.
  intros H. destruct (probe_locations_prefix E self repo_name locations t o t' H)
    as (k & Hk & Hk1 & Ht & Hsome & Hnone).
  exists k. split; [split; [apply Hk1; discriminate | exact Hk]|].
  split; [exact Ht|]. split; [| exact Hnone].
  intros c l Hcl. exact (proj2 (Hsome c l Hcl)).
Qed.

(** X12. A candidate ends the search with an exception, later candidates
    left untried, when its request gets no answer, when its 200 body is not
    an object ([AttributeError], as for a directory, which is listed as an
    array), when its [content] is true but not a string ([TypeError]), and
    when its payload does not decode. *)
Theorem locator_candidate_raises (location : str) (rest : list str) (t : trace) :
  let final := t ++ [Get (probe location)] in
  (forall e, server E t (probe location) = Raise e ->
     probe_locations E self repo_name (location :: rest) t = (Raises e, final)) /\
  (forall resp,
     server E t (probe location) = Ok resp -> status_code resp = 200%Z ->
     ~ Json.is_object (body resp) ->
     probe_locations E self repo_name (location :: rest) t
     = (Raises AttributeError, final)) /\
  (forall resp v,
     server E t (probe location) = Ok resp -> status_code resp = 200%Z ->
     Json.get (body resp) (py "content") JNull = Ok v -> Json.truthy v = true ->
     (forall s, v <> JStr s) ->
     probe_locations E self repo_name (location :: rest) t
     = (Raises TypeError, final)) /\
  (forall resp payload e,
     server E t (probe location) = Ok resp -> status_code resp = 200%Z ->
     Json.get (body resp) (py "content") JNull = Ok (JStr payload) -> payload <> [] ->
     b64decode_utf8 E payload = Raise e ->
     probe_locations E self repo_name (location :: rest) t = (Raises e, final)).
Proof.
  intros final. split; [| split; [| split]].
  - intros e Hs. cbn [probe_locations]. rewrite bind_session_get, Hs. reflexivity.
  - intros resp Hs H200 Hobj. cbn [probe_locations].
    rewrite bind_session_get, Hs. run. rewrite H200. cbn [Z.eqb Pos.eqb].
    destruct (body resp); try reflexivity. exfalso. apply Hobj. exact I.
  - intros resp v Hs H200 Hget Hv Hstr. cbn [probe_locations].
    rewrite bind_session_get, Hs. run. rewrite H200, Hget. cbn [Z.eqb Pos.eqb]. run.
    rewrite Hv. destruct (body resp) as [| | | | | |fields]; try discriminate.
    cbn [Json.get Json.subscript] in Hget |- *.
    destruct (Json.lookup (py "content") fields) as [x|];
      [injection Hget as -> | injection Hget as <-; discriminate].
    run. destruct v; try reflexivity. exfalso. exact (Hstr s eq_refl).
  - intros resp payload e Hs H200 Hget Hne Hdec. cbn [probe_locations].
    rewrite bind_session_get, Hs. run. rewrite H200, Hget. cbn [Z.eqb Pos.eqb]. run.
    destruct payload as [|c payload]; [contradiction|]. cbn [Json.truthy is_empty negb].
    destruct (body resp) as [| | | | | |fields]; try discriminate.
    cbn [Json.get Json.subscript] in Hget |- *.
    destruct (Json.lookup (py "content") fields) as [x|]; [| discriminate].
    injection Hget as ->. run. cbn [decode_content]. rewrite Hdec. reflexivity.
Qed.

End LocatorMore.

Lemma locator_requests_are_a_prefix_witness :
  exists k,
    (1 <= k <= 3)%nat /\
    [ Get (contents_request Examples.root_only Examples.acme Examples.svc
             (py ".github/CODEOWNERS"));
      Get (contents_request Examples.root_only Examples.acme Examples.svc
             (py "CODEOWNERS")) ]
    = [] ++ map Get (firstn k (candidate_requests Examples.root_only Examples.acme
                                 Examples.svc)).
Proof.
  destruct (locator_requests_are_a_prefix Examples.root_only Examples.acme Examples.svc
              [] _ _ eq_refl) as (k & Hk & Ht & _).
  exists k. split; [exact Hk | exact Ht].
Defined.

Lemma locator_candidate_raises_witness :
  get_codeowners_content Examples.codeowners_directory Examples.acme Examples.svc []
  = (Raises AttributeError,
     [ Get (contents_request Examples.codeowners_directory Examples.acme Examples.svc
              (py ".github/CODEOWNERS")) ]).
Proof.
  destruct (locator_candidate_raises Examples.codeowners_directory Examples.acme
              Examples.svc (py ".github/CODEOWNERS")
              [py "CODEOWNERS"; py "docs/CODEOWNERS"] []) as (_ & H & _).
  apply (H _ eq_refl eq_refl). intros Hobj. exact Hobj.
Defined.

(** ** More on the report *)

Section ReportMore.

Variable E : env.
Variable self : analyzer.

Lemma analyze_loop_rows (repositories : list json) :
  forall (i : Z) (results : list analysis_record) (t : trace)
         (records : list analysis_record) (t' : trace),
    analyze_loop E self i repositories results t = (Returns records, t') ->
    exists rows, records = results ++ rows /\ Forall2 row_of repositories rows.
Proof.
  induction repositories as [|repo rest IH]; intros i results t records t' H.
  - cbn in H. injection H as <- _. exists []. rewrite app_nil_r.
    split; [reflexivity | constructor].
  - cbn [analyze_loop] in H.
    destruct (Json.subscript repo (py "name")) as [name | e] eqn:Hname; run_in H;
      [| discriminate].
    destruct (Json.subscript repo (py "html_url")) as [url | e] eqn:Hurl; run_in H;
      [| discriminate].
    unfold bind at 1 in H.
    destruct ((if (i mod 50 =? 0)%Z then check_rate_limit E else ret tt) t)
      as [[[] | e |] t1]; try discriminate.
    unfold bind at 1 in H. unfold get_codeowners_content in H.
    pose proof (probe_locations_shape E self name locations t1) as Hshape.
    destruct (probe_locations E self name locations t1)
      as [[[content location] | e |] t2]; try discriminate.
    cbn [fst snd] in H, Hshape. unfold bind at 1 in H. rewrite time_sleep_tenth in H.
    destruct (IH _ _ _ _ _ H) as (rows & -> & Hrows).
    exists (assemble url name content location :: rows).
    rewrite <- app_assoc. split; [reflexivity|].
    constructor; [| exact Hrows].
    assert (Hurl' : repository_url (assemble url name content location) = url)
      by (unfold assemble; destruct content as [[|c s]|]; reflexivity).
    assert (Hname' : repository_name (assemble url name content location) = name)
      by (unfold assemble; destruct content as [[|c s]|]; reflexivity).
    unfold row_of. rewrite Hurl', Hname'.
    split; [exact Hname|]. split; [exact Hurl|].
    exists content, location. split; [reflexivity|].
    destruct content as [c|], location as [l|]; try contradiction.
    + right. exists c, l. split; [reflexivity | split; [reflexivity | exact Hshape]].
    + left. split; reflexivity.
Qed.

Lemma row_of_invariants (repo : json) (r : analysis_record) :
  row_of repo r ->
  (has_codeowner_file r = true <->
   exists l, codeowners_file_location r = Some l /\ In l locations) /\
  primary_owner r <> [] /\
  (primary_owner r = no_codeowners_file \/
   (has_codeowner_file r = true /\ no_whitespace (primary_owner r))).
Proof.
  intros (_ & _ & content & location & Hr & Hshape). rewrite Hr. clear Hr.
  generalize (repository_url r) (repository_name r). intros url name.
  assert (Hmissing : forall content' location',
            (content' = None \/ content' = Some []) ->
            (has_codeowner_file (assemble url name content' location') = true <->
             exists l, codeowners_file_location (assemble url name content' location')
                       = Some l /\ In l locations) /\
            primary_owner (assemble url name content' location') <> [] /\
            (primary_owner (assemble url name content' location') = no_codeowners_file \/
             (has_codeowner_file (assemble url name content' location') = true /\
              no_whitespace (primary_owner (assemble url name content' location'))))).
  { intros content' location' [-> | ->]; unfold assemble;
      cbn [has_codeowner_file codeowners_file_location primary_owner or_default];
      (split; [split; [intros Hx; discriminate Hx | intros (l & Hl & _); discriminate Hl]|]);
      (split; [intros Hx; discriminate Hx | left; reflexivity]). }
  destruct Hshape as [[-> ->] | (c & l & -> & -> & Hl)].
  - apply Hmissing. left. reflexivity.
  - destruct c as [|c0 c]; [apply Hmissing; right; reflexivity|].
    unfold assemble.
    cbn [has_codeowner_file codeowners_file_location primary_owner].
    split; [split; [intros _; exists l; split; [reflexivity | exact Hl] | reflexivity]|].
    destruct (parse_primary_codeowner (c0 :: c)) as [[|o owner]|] eqn:Hparse;
      cbn [or_default].
    + split; [intros Hx; discriminate Hx | left; reflexivity].
    + split; [intros Hx; discriminate Hx|]. right. split; [reflexivity|].
      unfold parse_primary_codeowner in Hparse. cbn [is_empty] in Hparse.
      exact (parse_lines_no_whitespace _ _ Hparse).
    + split; [intros Hx; discriminate Hx | left; reflexivity].
Qed.

(** X13. When [analyze_repositories] returns, its rows are those of the
    repositories it was given, one each and in the same order: every row
    carries the [name] and the [html_url] of its repository.  So it returns
    only when every entry has both keys. *)
Theorem rows_follow_repositories (repositories : list json) (t : trace)
    (records : list analysis_record) (t' : trace) :
  analyze_repositories E self repositories t = (Returns records, t') ->
  Forall2 (fun repo r =>
             Json.subscript repo (py "name") = Ok (repository_name r) /\
             Json.subscript repo (py "html_url") = Ok (repository_url r))
          repositories records.
Proof.
  intros H. destruct (analyze_loop_rows repositories 1 [] t records t' H)
    as (rows & -> & Hrows). cbn [app]. clear H.
  induction Hrows as [|repo r repos rows (Hn & Hu & _) _ IH];
    [constructor | constructor; [split; assumption | exact IH]].
Qed.

(** X14. In every row that [analyze_repositories] returns,
    [has_codeowner_file] is true exactly when the location is present, and
    then the location is one of the three paths; the owner is never the
    empty string; and an owner other than [No CODEOWNERS file] belongs to
    a row with a file and holds no whitespace. *)
Theorem returned_rows_are_consistent (repositories : list json) (t : trace)
    (records : list analysis_record) (t' : trace) :
  analyze_repositories E self repositories t = (Returns records, t') ->
  forall r, In r records ->
    (has_codeowner_file r = true <->
     exists l, codeowners_file_location r = Some l /\ In l locations) /\
    primary_owner r <> [] /\
    (primary_owner r = no_codeowners_file \/
     (has_codeowner_file r = true /\ no_whitespace (primary_owner r))).
Proof.
  intros H r Hr. destruct (analyze_loop_rows repositories 1 [] t records t' H)
    as (rows & -> & Hrows). cbn [app] in Hr. clear H.
  induction Hrows as [|repo r0 repos rows Hrow _ IH]; [contradiction|].
  destruct Hr as [<- | Hr]; [exact (row_of_invariants repo r0 Hrow) | exact (IH Hr)].
Qed.

Lemma requests_map_get (l : list request) : requests (map Get l) = l.
Proof. induction l as [|r l IH]; [reflexivity|]. cbn. f_equal. exact IH. Qed.

Lemma sleeps_map_get (l : list request) : sleeps (map Get l) = [].
Proof. induction l as [|r l IH]; [reflexivity | exact IH]. Qed.

Lemma sleeps_app (t d : trace) : sleeps (t ++ d) = sleeps t ++ sleeps d.
Proof. unfold sleeps. apply flat_map_app. Qed.

(** The requests and the sleeps of one locator call and of one guard
    call. *)
Lemma locator_budget (name : json) (t : trace)
    (o : outcome (option str * option str)) (t' : trace) :
  get_codeowners_content E self name t = (o, t') ->
  exists d, t' = t ++ d /\ (1 <= length (requests d) <= 3)%nat /\ sleeps d = [].
Proof.
  intros H. destruct (probe_locations_prefix E self name locations t o t' H)
    as (k & Hk & Hk1 & -> & _).
  eexists. split; [reflexivity|]. rewrite requests_map_get, sleeps_map_get.
  split; [| reflexivity]. rewrite length_firstn, length_map.
  specialize (Hk1 ltac:(discriminate)).
  change (length locations) with 3%nat in *. lia.
Qed.

Lemma guard_budget (t : trace) (o : outcome unit) (t' : trace) :
  check_rate_limit E t = (o, t') ->
  exists d, t' = t ++ d /\ length (requests d) = 1%nat /\ (length (sleeps d) <= 1)%nat.
Proof.
  intros H. destruct (check_rate_limit_outcomes E t o t' H) as [-> | (w & _ & _ & ->)].
  - exists [Get rate_limit_request]. split; [reflexivity | cbn; lia].
  - exists [Get rate_limit_request; Sleep w]. unfold probed.
    rewrite <- app_assoc. split; [reflexivity | cbn; lia].
Qed.

Lemma analyze_loop_budget (repositories : list json) :
  forall (i : Z) (results : list analysis_record) (t : trace)
         (records : list analysis_record) (t' : trace),
    analyze_loop E self i repositories results t = (Returns records, t') ->
    exists d,
      t' = t ++ d /\
      (length repositories + length (guard_indices i (length repositories))
       <= length (requests d)
       <= 3 * length repositories + length (guard_indices i (length repositories)))%nat /\
      (length repositories <= length (sleeps d)
       <= length repositories + length (guard_indices i (length repositories)))%nat.
Proof.
  induction repositories as [|repo rest IH]; intros i results t records t' H.
  - cbn in H. injection H as _ <-. exists []. rewrite app_nil_r.
    split; [reflexivity | cbn; lia].
  - cbn [analyze_loop] in H.
    destruct (Json.subscript repo (py "name")) as [name | e]; run_in H; [| discriminate].
    destruct (Json.subscript repo (py "html_url")) as [url | e]; run_in H;
      [| discriminate].
    unfold bind at 1 in H.
    assert (Hguard : forall o t1,
              (if (i mod 50 =? 0)%Z then check_rate_limit E else ret tt) t = (o, t1) ->
              exists d1, t1 = t ++ d1 /\
                length (requests d1) = (if (i mod 50 =? 0)%Z then 1 else 0)%nat /\
                (length (sleeps d1) <= if (i mod 50 =? 0)%Z then 1 else 0)%nat).
    { intros o t1. destruct (i mod 50 =? 0)%Z.
      - apply guard_budget.
      - intros Hr. injection Hr as _ <-. exists []. rewrite app_nil_r.
        split; [reflexivity | cbn; lia]. }
    destruct ((if (i mod 50 =? 0)%Z then check_rate_limit E else ret tt) t)
      as [[[] | e |] t1] eqn:Hg; try discriminate.
    destruct (Hguard _ _ eq_refl) as (d1 & -> & Hr1 & Hs1).
    unfold bind at 1 in H.
    destruct (get_codeowners_content E self name (t ++ d1))
      as [[found | e |] t2] eqn:Hloc; try discriminate.
    destruct (locator_budget name _ _ _ Hloc) as (d2 & -> & Hr2 & Hs2).
    unfold bind at 1 in H. rewrite time_sleep_tenth in H.
    destruct (IH _ _ _ _ _ H) as (d3 & -> & Hr3 & Hs3).
    exists (d1 ++ d2 ++ [Sleep (1 # 10)] ++ d3).
    split; [rewrite <- !app_assoc; reflexivity|].
    rewrite !requests_app, !sleeps_app, !length_app, Hs2.
    unfold guard_indices in *. cbn [length page_numbers filter requests sleeps flat_map app].
    destruct (i mod 50 =? 0)%Z; cbn [length]; lia.
Qed.

(** X15. A completed run over [n] repositories has sent between [n] and
    [3 * n] requests for CODEOWNERS files plus [n / 50] quota probes, and
    has slept at least [n] and at most [n + n / 50] times. *)
Theorem analyze_repositories_budget (repositories : list json) (t : trace)
    (records : list analysis_record) (t' : trace) :
  analyze_repositories E self repositories t = (Returns records, t') ->
  exists d,
    t' = t ++ d /\
    (length repositories + length repositories / 50
     <= length (requests d)
     <= 3 * length repositories + length repositories / 50)%nat /\
    (length repositories <= length (sleeps d)
     <= length repositories + length repositories / 50)%nat.
Proof.
  intros H. destruct (analyze_loop_budget repositories 1 [] t records t' H)
    as (d & Hd & Hr & Hs).
  rewrite guard_indices_count in Hr, Hs. exists d. split; [exact Hd | split; assumption].
Qed.

End ReportMore.

Lemma rows_follow_repositories_witness :
  exists records,
    fst (analyze_repositories Examples.root_only Examples.acme
           [Examples.repo_entry "svc" false false; Examples.repo_entry "web" true false] [])
    = Returns records /\
    Forall2 (fun repo r =>
               Json.subscript repo (py "name") = Ok (repository_name r) /\
               Json.subscript repo (py "html_url") = Ok (repository_url r))
      [Examples.repo_entry "svc" false false; Examples.repo_entry "web" true false]
      records.
Proof.
  pose (run := analyze_repositories Examples.root_only Examples.acme
                 [Examples.repo_entry "svc" false false;
                  Examples.repo_entry "web" true false] []).
  assert (Hrun : run = (Returns (match fst run with Returns r => r | _ => [] end), snd run))
    by (vm_compute; reflexivity).
  eexists. split; [exact (f_equal fst Hrun)|].
  exact (rows_follow_repositories Examples.root_only Examples.acme _ _ _ _ Hrun).
Defined.

Lemma returned_rows_are_consistent_witness :
  primary_owner
    {| repository_url := JStr (py "https://github.com/acme/svc");
       repository_name := JStr (py "svc");
       has_codeowner_file := true;
       codeowners_file_location := Some (py "CODEOWNERS");
       primary_owner := py "alice" |} <> [].
Proof.
  pose (run := analyze_repositories Examples.root_only Examples.acme
                 [Examples.repo_entry "svc" false false] []).
  assert (Hrun : run = (Returns (match fst run with Returns r => r | _ => [] end), snd run))
    by (vm_compute; reflexivity).
  refine (proj1 (proj2 (returned_rows_are_consistent Examples.root_only Examples.acme
                          _ _ _ _ Hrun _ _))).
  left. vm_compute. reflexivity.
Defined.

Lemma analyze_repositories_budget_witness :
  exists d,
    snd (analyze_repositories Examples.root_only Examples.acme
           (repeat (Examples.repo_entry "svc" false false) 50) []) = [] ++ d
    /\ (51 <= length (requests d) <= 151)%nat
    /\ (50 <= length (sleeps d) <= 51)%nat.
Proof.
  pose (run := analyze_repositories Examples.root_only Examples.acme
                 (repeat (Examples.repo_entry "svc" false false) 50) []).
  assert (Hrun : run = (Returns (match fst run with Returns r => r | _ => [] end), snd run))
    by (vm_compute; reflexivity).
  destruct (analyze_repositories_budget Examples.root_only Examples.acme _ _ _ _ Hrun)
    as (d & Hd & Hr & Hs).
  exists d. split; [exact Hd|]. rewrite repeat_length in Hr, Hs.
  split; [exact Hr | exact Hs].
Defined.

(** ** The command line *)

Section Main.

Variable E : env.
Variable github_token : option str.
Variable fuel : nat.

(** X16. A command line without any repository class, one that combines
    [--all] with another class, and one without a token (neither
    [--token] nor [GITHUB_TOKEN], an empty string counting as none) end
    [main] before anything is sent: the history is unchanged. *)
Theorem main_rejects_before_any_request (args : arguments) (t : trace) :
  (arg_all args = false -> arg_public args = false ->
   arg_private args = false -> arg_archived args = false ->
   main E github_token fuel args t = (Returns NoRepositoryClass, t)) /\
  (arg_all args = true ->
   arg_public args || arg_private args || arg_archived args = true ->
   main E github_token fuel args t = (Returns AllWithOthers, t)) /\
  (arg_all args || arg_public args || arg_private args || arg_archived args = true ->
   arg_all args && (arg_public args || arg_private args || arg_archived args) = false ->
   (arg_token args = None \/ arg_token args = Some []) ->
   (github_token = None \/ github_token = Some []) ->
   main E github_token fuel args t = (Returns NoToken, t)).
Proof.
  unfold main. split; [| split].
  - intros -> -> -> ->. reflexivity.
  - intros -> ->. reflexivity.
  - intros -> -> [-> | ->] [-> | ->]; reflexivity.
Qed.

(** X17. [main] never lets an exception of the analyzer out, and it hands
    rows to [save_to_csv] only after discovery has returned a non-empty
    list and the analysis of that whole list has returned: the file is the
    one named by [--output] and has one row per discovered repository. *)
Theorem main_saves_only_complete_reports (args : arguments) (t : trace)
    (o : outcome exit) (t' : trace) :
  main E github_token fuel args t = (o, t') ->
  (forall e, o <> Raises e) /\
  (forall filename rows,
     o = Returns (Saved filename rows) ->
     filename = arg_output args /\
     exists token repositories t1,
       or_else (arg_token args) github_token = Some token /\
       get_repositories E {| token := token; org := arg_org args |} fuel
         (filters_of args) t = (Returns repositories, t1) /\
       repositories <> [] /\
       analyze_repositories E {| token := token; org := arg_org args |} repositories t1
       = (Returns rows, t') /\
       length rows = length repositories).
Proof.
  unfold main.
  destruct (negb (arg_all args || arg_public args || arg_private args || arg_archived args));
    [intros H; injection H as <- _; split; intros; discriminate|].
  destruct (arg_all args && (arg_public args || arg_private args || arg_archived args));
    [intros H; injection H as <- _; split; intros; discriminate|].
  destruct (or_else (arg_token args) github_token) as [[|c s]|];
    try (intros H; injection H as <- _; split; intros; discriminate).
  unfold try_except. cbv zeta. unfold bind at 1.
  destruct (get_repositories E {| token := c :: s; org := arg_org args |} fuel
              (filters_of args) t) as [[[|repo repos] | e |] t1] eqn:Hdisc;
    try (intros H; injection H as <- _; split; intros; discriminate).
  unfold bind at 1.
  destruct (analyze_repositories E {| token := c :: s; org := arg_org args |}
              (repo :: repos) t1) as [[rows | e |] t2] eqn:Han;
    try (intros H; injection H as <- _; split; intros; discriminate).
  intros H. injection H as <- <-. split; [intros; discriminate|].
  intros filename rows' Hs. injection Hs as <- <-. split; [reflexivity|].
  exists (c :: s), (repo :: repos), t1.
  split; [reflexivity|]. split; [exact Hdisc|]. split; [discriminate|].
  split; [exact Han|].
  destruct (analyze_loop_records E _ _ _ _ _ _ (f_equal fst Han)) as (rs & -> & Hlen & _).
  exact Hlen.
Qed.

(** X18. [--all] alone and the three classes [--public --private
    --archived] together make [main] do exactly the same. *)
Theorem all_is_the_three_classes (args : arguments) (t : trace) :
  arg_all args = true -> arg_public args = false ->
  arg_private args = false -> arg_archived args = false ->
  main E github_token fuel args t
  = main E github_token fuel
      {| arg_org := arg_org args; arg_token := arg_token args;
         arg_output := arg_output args; arg_all := false;
         arg_public := true; arg_private := true; arg_archived := true |} t.
Proof.
  intros Hall Hpub Hpriv Harch. unfold main, filters_of.
  cbn [arg_org arg_token arg_output arg_all arg_public arg_private arg_archived].
  rewrite Hall, Hpub, Hpriv, Harch. reflexivity.
Qed.

(** X19. With [--archived] as the only class, [main] never saves a
    report: discovery keeps no entry, archived or not, so a discovery that
    returns ends [main] with nothing found. *)
Theorem archived_alone_saves_nothing (args : arguments) (t : trace)
    (o : outcome exit) (t' : trace) :
  arg_all args = false -> arg_public args = false -> arg_private args = false ->
  main E github_token fuel args t = (o, t') ->
  (forall filename rows, o <> Returns (Saved filename rows)) /\
  (forall token repositories t1,
     or_else (arg_token args) github_token = Some token -> token <> [] ->
     arg_archived args = true ->
     get_repositories E {| token := token; org := arg_org args |} fuel
       (filters_of args) t = (Returns repositories, t1) ->
     o = Returns NoRepositories /\ t' = t1).
Proof.
  intros Hall Hpub Hpriv.
  assert (Hnone : forall self repositories t1,
            get_repositories E self fuel (filters_of args) t = (Returns repositories, t1) ->
            repositories = []).
  { intros self repositories t1 H.
    destruct (loop_returns_kept E self (filters_of args) fuel [] 1 t repositories t1 H)
      as (more & -> & Hm).
    destruct more as [|repo more]; [reflexivity|]. exfalso.
    inversion Hm as [|? ? [_ Hk] _]. unfold kept, filters_of in Hk.
    rewrite Hall in Hk. cbn [include_public include_private include_archived] in Hk.
    rewrite Hpub, Hpriv in Hk.
    destruct (flag repo (py "private")), (flag repo (py "archived")),
      (arg_archived args); discriminate. }
  unfold main. rewrite Hall, Hpub, Hpriv. cbn [orb andb].
  destruct (arg_archived args) eqn:Harch; cbn [negb].
  - destruct (or_else (arg_token args) github_token) as [[|c s]|] eqn:Htok.
    + intros H. injection H as <- <-. split; [intros; discriminate|].
      intros token repositories t1 Ht Hne. injection Ht as <-. contradiction.
    + unfold try_except. cbv zeta. unfold bind at 1.
      destruct (get_repositories E {| token := c :: s; org := arg_org args |} fuel
                  (filters_of args) t) as [[repos | e |] t1] eqn:Hdisc.
      * rewrite (Hnone _ _ _ Hdisc) in *. intros H. injection H as <- <-.
        split; [intros; discriminate|].
        intros token repositories t2 Ht _ _ Hd. injection Ht as <-.
        rewrite Hdisc in Hd. injection Hd as _ <-. split; reflexivity.
      * intros H. injection H as <- <-. split; [intros; discriminate|].
        intros token repositories t2 Ht _ _ Hd. injection Ht as <-.
        rewrite Hdisc in Hd. discriminate.
      * intros H. injection H as <- <-. split; [intros; discriminate|].
        intros token repositories t2 Ht _ _ Hd. injection Ht as <-.
        rewrite Hdisc in Hd. discriminate.
    + intros H. injection H as <- <-. split; [intros; discriminate|].
      intros token repositories t1 Ht. discriminate.
  - intros H. injection H as <- <-. split; [intros; discriminate|].
    intros token repositories t1 _ _ Hx. discriminate.
Qed.

End Main.

Lemma main_rejects_before_any_request_witness :
  main Examples.small_org (Some (py "t0ken")) 3
    (Examples.cli None true true false false) []
  = (Returns AllWithOthers, []).
Proof.
  destruct (main_rejects_before_any_request Examples.small_org (Some (py "t0ken")) 3
              (Examples.cli None true true false false) []) as (_ & H & _).
  apply H; reflexivity.
Defined.

Lemma main_saves_only_complete_reports_witness :
  exists repositories t1,
    get_repositories Examples.small_org
      {| token := py "t0ken"; org := py "acme" |} 3 Examples.public_only []
    = (Returns repositories, t1)
    /\ length
         [ {| repository_url := JStr (py "https://github.com/acme/api");
              repository_name := JStr (py "api");
              has_codeowner_file := true;
              codeowners_file_location := Some (py ".github/CODEOWNERS");
              primary_owner := py "bob" |};
           {| repository_url := JStr (py "https://github.com/acme/web");
              repository_name := JStr (py "web");
              has_codeowner_file := false;
              codeowners_file_location := None;
              primary_owner := no_codeowners_file |} ]
       = length repositories.
Proof.
  pose (run := main Examples.small_org None 3
                 (Examples.cli (Some (py "t0ken")) false true false false) []).
  assert (Hrun : run = (Returns (Saved (py "codeowners_analysis.csv")
                                   [ {| repository_url := JStr (py "https://github.com/acme/api");
                                        repository_name := JStr (py "api");
                                        has_codeowner_file := true;
                                        codeowners_file_location := Some (py ".github/CODEOWNERS");
                                        primary_owner := py "bob" |};
                                     {| repository_url := JStr (py "https://github.com/acme/web");
                                        repository_name := JStr (py "web");
                                        has_codeowner_file := false;
                                        codeowners_file_location := None;
                                        primary_owner := no_codeowners_file |} ]),
                        snd run))
    by (vm_compute; reflexivity).
  destruct (main_saves_only_complete_reports Examples.small_org None 3 _ _ _ _ Hrun)
    as [_ H].
  destruct (H _ _ eq_refl) as (_ & token & repositories & t1 & Htok & Hdisc & _ & _ & Hlen).
  injection Htok as <-. exists repositories, t1. split; [exact Hdisc | exact Hlen].
Defined.

Lemma all_is_the_three_classes_witness :
  main Examples.small_org None 3 (Examples.cli (Some (py "t0ken")) true false false false) []
  = main Examples.small_org None 3 (Examples.cli (Some (py "t0ken")) false true true true) [].
Proof.
  apply (all_is_the_three_classes Examples.small_org None 3
           (Examples.cli (Some (py "t0ken")) true false false false) []);
    reflexivity.
Defined.

Lemma archived_alone_saves_nothing_witness :
  fst (main Examples.small_org None 3
         (Examples.cli (Some (py "t0ken")) false false false true) [])
  = Returns NoRepositories.
Proof.
  pose (run := main Examples.small_org None 3
                 (Examples.cli (Some (py "t0ken")) false false false true) []).
  pose (disc := get_repositories Examples.small_org
                  {| token := py "t0ken"; org := py "acme" |} 3
                  Examples.archived_only []).
  assert (Hdisc : disc = (Returns (match fst disc with Returns r => r | _ => [] end),
                          snd disc))
    by (vm_compute; reflexivity).
  destruct (archived_alone_saves_nothing Examples.small_org None 3
              (Examples.cli (Some (py "t0ken")) false false false true) []
              (fst run) (snd run) eq_refl eq_refl eq_refl
              (surjective_pairing run)) as [_ H].
  destruct (H (py "t0ken") _ _ eq_refl ltac:(discriminate) eq_refl Hdisc) as [Ho _].
  exact Ho.
Defined.
